(** * buildscripts/generate_resmoke_suites.py

    A shallow embedding of the suite-partitioning core of the resmoke
    suite generator, and the properties of it that the specification
    states.

    Modelling conventions.
    - Test identifiers are Python strings: [string].
    - The runtimes the packing adds up and compares are Python numbers,
      [pynum]: an int or a float, a float being given by its rational
      value.  Ints are added exactly; an addition with a float operand is
      the binary64 addition, a parameter [fadd] of the development, after
      the conversion [fround] of an int operand.  Comparisons of Python
      numbers are exact.  The theorems hold for every [fadd] and [fround].
    - The durations the statistics average are idealised as exact
      rationals [Q].  Equality of computed durations is therefore [Qeq]
      ([==]) unless both sides are built by the very same operations.
    - Integer counts ([num_run], [max_suites], [fallback_num_sub_suites])
      are Python ints: [Z].  List positions are [nat].
    - Python exceptions are values of [exn]; a computation that may raise
      returns a [result].
    - A [dict] is an association list in insertion order (the iteration
      order of [dict.items()]); keys are unique.  A [defaultdict(dict)]
      inserts an empty inner dict when a missing key is looked up. *)

From Stdlib Require Import Ascii String List ZArith QArith Bool Arith Lia Lqa.
From Stdlib Require Import Permutation Sorted.
Import ListNotations.

Local Open Scope Q_scope.

(** ** Exceptions and fallible computations *)

Inductive exn : Type :=
| IndexError
| ZeroDivisionError
| KeyError
| HTTPError (status_code : Z)
| OtherError (name : string).

Inductive result (A : Type) : Type :=
| Ok (a : A)
| Raise (e : exn).

Arguments Ok {A} a.
Arguments Raise {A} e.

Definition bind {A B : Type} (m : result A) (k : A -> result B) : result B :=
  match m with
  | Ok a => k a
  | Raise e => Raise e
  end.

Notation "x <- m ;; k" := (bind m (fun x => k))
  (at level 61, m at next level, right associativity).

(** ** Python list helpers *)

(** [l[i] = x] for an index known to be in range; the cell is replaced in
    place, the other cells are untouched. *)
Fixpoint list_set {A : Type} (l : list A) (i : nat) (x : A) : list A :=
  match l, i with
  | [], _ => []
  | _ :: l', O => x :: l'
  | y :: l', S i' => y :: list_set l' i' x
  end.

(** [a > b] on numbers. *)
Definition Qgt_bool (a b : Q) : bool := negb (Qle_bool a b).

(** Truthiness of an optional integer argument: [None] and [0] are falsy. *)
Definition truthy (n : option Z) : bool :=
  match n with
  | None => false
  | Some z => negb (z =? 0)%Z
  end.

(** [len(l) >= n] for an optional integer already known to be truthy. *)
Definition len_ge {A : Type} (l : list A) (n : option Z) : bool :=
  match n with
  | None => false
  | Some z => (z <=? Z.of_nat (length l))%Z
  end.

(** ** Python numbers *)

(** An int, or a float given by its rational value. *)
Inductive pynum : Type :=
| PyInt (z : Z)
| PyFloat (q : Q).

(** The exact value of a number. *)
Definition value (x : pynum) : Q :=
  match x with
  | PyInt z => inject_Z z
  | PyFloat q => q
  end.

(** [a > b]: Python compares ints and floats by their exact values. *)
Definition py_gt (a b : pynum) : bool := Qgt_bool (value a) (value b).

(** An arithmetic that never rounds: Python's on ints, and on the floats
    of the sample inputs. *)
Definition exact_add (a b : Q) : Q := a + b.

Definition exact_round (a : Q) : Q := a.

(** The IEEE 754 binary64 arithmetic on rationals, in the normal range (no
    overflow, no subnormal numbers): [binary64_round] rounds to the nearest
    number with a 53-bit significand, ties to even, and [binary64_add] is
    the rounded sum.  [shifted a d e] is the fraction [a / d * 2 ^ (- e)]. *)
Definition shifted (a d e : Z) : Z * Z :=
  if (0 <=? e)%Z then (a, (d * 2 ^ e)%Z) else ((a * 2 ^ (- e))%Z, d).

Definition binary64_round (q : Q) : Q :=
  let n := Qnum q in
  let d := Zpos (Qden q) in
  if (n =? 0)%Z then 0 else
  let a := Z.abs n in
  let l := (Z.log2 a - Z.log2 d)%Z in
  let '(n0, d0) := shifted a d l in
  let lg := if (n0 <? d0)%Z then (l - 1)%Z else l in
  let e := (lg - 52)%Z in
  let '(n1, d1) := shifted a d e in
  let m := (n1 / d1)%Z in
  let r := (n1 mod d1)%Z in
  let m' := if (2 * r <? d1)%Z then m
            else if (d1 <? 2 * r)%Z then (m + 1)%Z
            else if Z.even m then m else (m + 1)%Z in
  let v := if (0 <=? e)%Z then Qmake (m' * 2 ^ e) 1
           else Qmake m' (Z.to_pos (2 ^ (- e))) in
  Qred (if (n <? 0)%Z then Qopp v else v).

Definition binary64_add (a b : Q) : Q := binary64_round (a + b).

Section Arithmetic.

(** The binary64 addition, on the values of two floats, and the conversion
    of the value of an int to the nearest float. *)
Variable fadd : Q -> Q -> Q.
Variable fround : Q -> Q.

(** [float(x)] *)
Definition to_float (x : pynum) : Q :=
  match x with
  | PyInt z => fround (inject_Z z)
  | PyFloat q => q
  end.

(** [a + b]: exact on two ints; with a float operand, the sum of the two
    operands as floats. *)
Definition py_add (a b : pynum) : pynum :=
  match a, b with
  | PyInt x, PyInt y => PyInt (x + y)
  | _, _ => PyFloat (fadd (to_float a) (to_float b))
  end.

(** ** class Suite *)

Record Suite : Type := mkSuite {
  tests : list string;
  total_runtime : pynum
}.

(** [Suite.__init__] *)
Definition Suite_init : Suite := {| tests := []; total_runtime := PyInt 0 |}.

(** [Suite.add_test] *)
Definition add_test (s : Suite) (test_file : string) (runtime : pynum)
  : Suite :=
  {| tests := tests s ++ [test_file];
     total_runtime := py_add (total_runtime s) runtime |}.

(** [Suite.get_runtime] *)
Definition get_runtime (s : Suite) : pynum := total_runtime s.

(** [Suite.get_test_count] *)
Definition get_test_count (s : Suite) : nat := length (tests s).

(** ** divide_remaining_tests_among_suites *)

(** The [for] loop of [divide_remaining_tests_among_suites], with the loop
    variable [suite_idx] as an argument.  [suites[suite_idx]] raises
    [IndexError] when the index is out of range. *)
Fixpoint divide_remaining_loop
    (remaining_tests_runtimes : list (string * pynum))
    (suite_idx : nat) (suites : list Suite) : result (list Suite) :=
  match remaining_tests_runtimes with
  | [] => Ok suites
  | (test_file, runtime) :: rest =>
      match nth_error suites suite_idx with
      | None => Raise IndexError
      | Some current_suite =>
          let suites' :=
            list_set suites suite_idx (add_test current_suite test_file runtime) in
          let suite_idx' := S suite_idx in
          let suite_idx'' :=
            if length suites' <=? suite_idx' then O else suite_idx' in
          divide_remaining_loop rest suite_idx'' suites'
      end
  end.

Definition divide_remaining_tests_among_suites
    (remaining_tests_runtimes : list (string * pynum)) (suites : list Suite)
  : result (list Suite) :=
  divide_remaining_loop remaining_tests_runtimes 0 suites.

(** ** divide_tests_into_suites *)

(** The state the packing loop leaves behind: the closed suites, the suite
    being filled, and [last_test_processed]. *)
Record pack_state : Type := mkPack {
  ps_suites : list Suite;
  ps_current : Suite;
  ps_last : nat
}.

(** The [for idx, (test_file, runtime) in enumerate(tests_runtimes)] loop.
    [idx] is the position of the head of the list still to be visited;
    the [break] returns at once with [last_test_processed = idx]. *)
Fixpoint pack_loop (max_time_seconds : pynum) (max_suites : option Z)
    (todo : list (string * pynum)) (idx : nat)
    (suites : list Suite) (current_suite : Suite) (last_test_processed : nat)
  : pack_state :=
  match todo with
  | [] => mkPack suites current_suite last_test_processed
  | (test_file, runtime) :: rest =>
      if py_gt (py_add (get_runtime current_suite) runtime) max_time_seconds
      then
        if 0 <? get_test_count current_suite then
          let suites' := suites ++ [current_suite] in
          let current_suite' := Suite_init in
          if truthy max_suites && len_ge suites' max_suites then
            mkPack suites' current_suite' idx
          else
            pack_loop max_time_seconds max_suites rest (S idx) suites'
              (add_test current_suite' test_file runtime) last_test_processed
        else
          pack_loop max_time_seconds max_suites rest (S idx) suites
            (add_test current_suite test_file runtime) last_test_processed
      else
        pack_loop max_time_seconds max_suites rest (S idx) suites
          (add_test current_suite test_file runtime) last_test_processed
  end.

(** The statement after the loop: a non-empty current suite is closed. *)
Definition close_current (st : pack_state) : list Suite :=
  if 0 <? get_test_count (ps_current st)
  then ps_suites st ++ [ps_current st]
  else ps_suites st.

Definition divide_tests_into_suites (tests_runtimes : list (string * pynum))
    (max_time_seconds : pynum) (max_suites : option Z)
  : result (list Suite) :=
  let st := pack_loop max_time_seconds max_suites tests_runtimes 0 []
              Suite_init (length tests_runtimes) in
  let suites := close_current st in
  if truthy max_suites && (ps_last st <? length tests_runtimes) then
    divide_remaining_tests_among_suites
      (skipn (ps_last st) tests_runtimes) suites
  else Ok suites.

(** All the tests of a list of suites, suite after suite. *)
Definition all_tests (suites : list Suite) : list string :=
  concat (map tests suites).

(** ** Dictionaries *)

(** One entry of the per-test mappings, [{"duration": Y, "num_run": X}]. *)
Record runtime_info : Type := mkInfo {
  duration : Q;
  num_run : Z
}.

(** The inner dict of a [defaultdict(dict)]: either the empty dict [{}]
    ([None]) or a dict holding both keys. *)
Definition inner_dict : Type := option runtime_info.

(** The outer dict, in insertion order. *)
Definition dict : Type := list (string * inner_dict).

Fixpoint dict_get (d : dict) (k : string) : option inner_dict :=
  match d with
  | [] => None
  | (k', v) :: d' => if String.eqb k' k then Some v else dict_get d' k
  end.

(** Mutation of the entry of [k]: the entry keeps its position; a new key
    goes to the end. *)
Fixpoint dict_set (d : dict) (k : string) (v : inner_dict) : dict :=
  match d with
  | [] => [(k, v)]
  | (k', v') :: d' =>
      if String.eqb k' k then (k', v) :: d' else (k', v') :: dict_set d' k v
  end.

(** [d[k]] on a [defaultdict(dict)]: a missing key is inserted with [{}]. *)
Definition defaultdict_getitem (d : dict) (k : string) : inner_dict * dict :=
  match dict_get d k with
  | Some v => (v, d)
  | None => (None, dict_set d k None)
  end.

Definition keys (d : dict) : list string := map fst d.

(** ** The built-in [sorted(tests, key=lambda x: x[1], reverse=True)]

    Python's sort is stable, also with [reverse=True]: elements with equal
    keys keep their original order.  The model is the stable insertion sort
    into descending order. *)
Fixpoint insert_desc (x : string * Q) (l : list (string * Q))
  : list (string * Q) :=
  match l with
  | [] => [x]
  | y :: l' =>
      if Qgt_bool (snd y) (snd x) then y :: insert_desc x l' else x :: y :: l'
  end.

Definition sorted_desc (l : list (string * Q)) : list (string * Q) :=
  fold_right insert_desc [] l.

(** A document of the Evergreen test_stats endpoint, with the fields the
    generator reads. *)
Record doc : Type := mkDoc {
  test_file : string;
  avg_duration_pass : Q;
  num_pass : Z
}.

(** [requests.codes.SERVICE_UNAVAILABLE] *)
Definition SERVICE_UNAVAILABLE : Z := 503.

(** [l[i]] for a Python int [i]: a negative index counts from the end, an
    index out of range raises [IndexError].  Returns the position too. *)
Definition list_getitem {A : Type} (l : list A) (i : Z) : result (nat * A) :=
  let i' := if (i <? 0)%Z then (Z.of_nat (length l) + i)%Z else i in
  if (i' <? 0)%Z then Raise IndexError
  else match nth_error l (Z.to_nat i') with
       | Some x => Ok (Z.to_nat i', x)
       | None => Raise IndexError
       end.

(** [a % b] on Python ints: floored, [ZeroDivisionError] for [b = 0]. *)
Definition py_mod (a b : Z) : result Z :=
  if (b =? 0)%Z then Raise ZeroDivisionError else Ok (a mod b)%Z.

Section Generator.

(** The helpers of [buildscripts.util.testname], which the generator calls
    but which are not part of this file. *)
Variable normalize_test_file : string -> string.
Variable is_resmoke_hook : string -> bool.
Variable split_test_hook_name : string -> string * string.
Variable get_short_name_from_test_file : string -> string.

(** ** class TestStats *)

Record TestStats : Type := mkStats {
  _runtime_by_test : dict;
  _hook_runtime_by_test : dict
}.

(** [TestStats._average] *)
Definition _average (value_a : Q) (num_a : Z) (value_b : Q) (num_b : Z)
  : result Q :=
  if (num_a + num_b =? 0)%Z then Raise ZeroDivisionError
  else Ok ((value_a * inject_Z num_a + value_b * inject_Z num_b)
           / inject_Z (num_a + num_b)).

(** [TestStats._add_runtime_info] *)
Definition _add_runtime_info (runtime_dict : dict) (test_name : string)
    (duration' : Q) (num_run' : Z) : result dict :=
  let '(info, runtime_dict) := defaultdict_getitem runtime_dict test_name in
  match info with
  | None =>
      Ok (dict_set runtime_dict test_name (Some (mkInfo duration' num_run')))
  | Some ri =>
      avg <- _average (duration ri) (num_run ri) duration' num_run' ;;
      Ok (dict_set runtime_dict test_name
            (Some (mkInfo avg (num_run ri + num_run')%Z)))
  end.

(** [TestStats._add_test_stats] *)
Definition _add_test_stats (self : TestStats) (test_file' : string)
    (duration' : Q) (num_run' : Z) : result TestStats :=
  d <- _add_runtime_info (_runtime_by_test self) test_file' duration' num_run' ;;
  Ok (mkStats d (_hook_runtime_by_test self)).

(** [TestStats._add_test_hook_stats] *)
Definition _add_test_hook_stats (self : TestStats) (test_file' : string)
    (duration' : Q) (num_run' : Z) : result TestStats :=
  let test_name := fst (split_test_hook_name test_file') in
  d <- _add_runtime_info (_hook_runtime_by_test self) test_name
         duration' num_run' ;;
  Ok (mkStats (_runtime_by_test self) d).

(** [TestStats._add_stats] *)
Definition _add_stats (self : TestStats) (test_stats : doc)
  : result TestStats :=
  let test_file' := normalize_test_file (test_file test_stats) in
  let duration' := avg_duration_pass test_stats in
  let num_run' := num_pass test_stats in
  let is_hook := is_resmoke_hook test_file' in
  if is_hook then _add_test_hook_stats self test_file' duration' num_run'
  else _add_test_stats self test_file' duration' num_run'.

(** The [for doc in evg_test_stats_results] loop of [__init__]. *)
Fixpoint add_all_stats (self : TestStats) (docs : list doc)
  : result TestStats :=
  match docs with
  | [] => Ok self
  | d :: rest => self' <- _add_stats self d ;; add_all_stats self' rest
  end.

(** [TestStats.__init__] *)
Definition TestStats_init (evg_test_stats_results : list doc)
  : result TestStats :=
  add_all_stats (mkStats [] []) evg_test_stats_results.

(** The [for test_file, runtime_info in self._runtime_by_test.items()] loop
    of [get_tests_runtimes]; the lookups go through the hook
    [defaultdict], which they may extend. *)
Fixpoint runtimes_loop (items : dict) (hooks : dict)
    (acc : list (string * Q)) : result (list (string * Q) * dict) :=
  match items with
  | [] => Ok (acc, hooks)
  | (test_file', info) :: rest =>
      match info with
      | None => Raise KeyError
      | Some ri =>
          let test_name := get_short_name_from_test_file test_file' in
          let '(hook_runtime_info, hooks') :=
            defaultdict_getitem hooks test_name in
          let duration' :=
            match hook_runtime_info with
            | Some h => duration ri + duration h
            | None => duration ri
            end in
          runtimes_loop rest hooks' (acc ++ [(test_file', duration')])
      end
  end.

(** The list [tests] of [get_tests_runtimes] before it is sorted, with the
    object as the lookups leave it. *)
Definition unsorted_runtimes (self : TestStats)
  : result (list (string * Q) * TestStats) :=
  r <- runtimes_loop (_runtime_by_test self) (_hook_runtime_by_test self) [] ;;
  Ok (fst r, mkStats (_runtime_by_test self) (snd r)).

(** [TestStats.get_tests_runtimes] *)
Definition get_tests_runtimes (self : TestStats)
  : result (list (string * Q) * TestStats) :=
  r <- unsorted_runtimes self ;;
  Ok (sorted_desc (fst r), snd r).

(** ** class Main *)

Record Main : Type := mkMain {
  (** [self.evergreen_api.test_stats], by the two dates of the call *)
  evergreen_api : Z -> Z -> result (list doc);
  (** [self.config_options.fallback_num_sub_suites] *)
  fallback_num_sub_suites : Z;
  (** [self.options.max_sub_suites] *)
  max_sub_suites : option Z;
  (** [self.options.execution_time_minutes] *)
  execution_time_minutes : Z;
  (** [suitesconfig.get_suite(self.config_options.suite).tests] *)
  suite_tests : list string;
  test_list : list string
}.

Definition set_test_list (self : Main) (l : list string) : Main :=
  mkMain (evergreen_api self) (fallback_num_sub_suites self)
    (max_sub_suites self) (execution_time_minutes self) (suite_tests self) l.

(** [Main.list_tests] *)
Definition list_tests (self : Main) : list string := suite_tests self.

(** [Main.get_evg_stats] *)
Definition get_evg_stats (self : Main) (start_date end_date : Z)
  : result (list doc) :=
  evergreen_api self start_date end_date.

(** The [for idx, test_file in enumerate(tests)] loop of
    [calculate_fallback_suites]. *)
Fixpoint fallback_loop (num_suites : Z) (todo : list string) (idx : nat)
    (suites : list Suite) : result (list Suite) :=
  match todo with
  | [] => Ok suites
  | test_file' :: rest =>
      j <- py_mod (Z.of_nat idx) num_suites ;;
      cell <- list_getitem suites j ;;
      fallback_loop num_suites rest (S idx)
        (list_set suites (fst cell) (add_test (snd cell) test_file' (PyInt 0)))
  end.

(** [Main.calculate_fallback_suites]; [range(n)] is empty for [n <= 0]. *)
Definition calculate_fallback_suites (self : Main) : result (list Suite) :=
  let num_suites := fallback_num_sub_suites self in
  let tests' := list_tests self in
  let suites := repeat Suite_init (Z.to_nat num_suites) in
  fallback_loop num_suites tests' 0 suites.

(** The runtimes [get_tests_runtimes] returns are floats. *)
Definition float_runtimes (l : list (string * Q)) : list (string * pynum) :=
  map (fun p => (fst p, PyFloat (snd p))) l.

(** [Main.calculate_suites_from_evg_stats]; the second component is the
    object afterwards ([self.test_list] is assigned before the packing). *)
Definition calculate_suites_from_evg_stats (self : Main) (data : list doc)
    (execution_time_secs : pynum) : result (list Suite) * Main :=
  match TestStats_init data with
  | Raise e => (Raise e, self)
  | Ok test_stats =>
      match get_tests_runtimes test_stats with
      | Raise e => (Raise e, self)
      | Ok (tests_runtimes, _) =>
          let self' := set_test_list self (map fst tests_runtimes) in
          (divide_tests_into_suites (float_runtimes tests_runtimes)
             execution_time_secs (max_sub_suites self'), self')
      end
  end.

(** The body of the [try] block of [calculate_suites]. *)
Definition calculate_suites_try (self : Main) (start_date end_date : Z)
  : result (list Suite) * Main :=
  match get_evg_stats self start_date end_date with
  | Raise e => (Raise e, self)
  | Ok evg_stats =>
      calculate_suites_from_evg_stats self evg_stats
        (PyInt (execution_time_minutes self * 60))
  end.

(** [Main.calculate_suites]: the [except requests.HTTPError] clause handles
    status 503 and raises anything else again; other exceptions are not
    caught. *)
Definition calculate_suites (self : Main) (start_date end_date : Z)
  : result (list Suite) * Main :=
  let '(r, self') := calculate_suites_try self start_date end_date in
  match r with
  | Raise (HTTPError status) =>
      if (status =? SERVICE_UNAVAILABLE)%Z
      then (calculate_fallback_suites self', self')
      else (Raise (HTTPError status), self')
  | _ => (r, self')
  end.

End Generator.

(** ** Sample test-name helpers

    An instance of the four helpers that follows the naming convention the
    generator relies on: a hook is named [<test name>:<hook kind>], and the
    short name of a test file is its base name without extension. *)

Definition sample_normalize_test_file (s : string) : string := s.

Fixpoint sample_is_resmoke_hook (s : string) : bool :=
  match s with
  | EmptyString => false
  | String c s' => Ascii.eqb c ":"%char || sample_is_resmoke_hook s'
  end.

Fixpoint before_char (sep : Ascii.ascii) (s : string) : string :=
  match s with
  | EmptyString => EmptyString
  | String c s' =>
      if Ascii.eqb c sep then EmptyString else String c (before_char sep s')
  end.

Fixpoint after_char (sep : Ascii.ascii) (s : string) : string :=
  match s with
  | EmptyString => EmptyString
  | String c s' => if Ascii.eqb c sep then s' else after_char sep s'
  end.

Definition sample_split_test_hook_name (s : string) : string * string :=
  (before_char ":"%char s, after_char ":"%char s).

Fixpoint last_segment (sep : Ascii.ascii) (s acc : string) : string :=
  match s with
  | EmptyString => acc
  | String c s' =>
      if Ascii.eqb c sep then last_segment sep s' EmptyString
      else last_segment sep s' (acc ++ String c EmptyString)%string
  end.

Definition sample_get_short_name_from_test_file (s : string) : string :=
  before_char "."%char (last_segment "/"%char s EmptyString).

(** ** Vocabulary of the statements *)

(** Adding a run of (test, duration) pairs to a suite, one [add_test] after
    the other. *)
Definition add_tests (s : Suite) (l : list (string * pynum)) : Suite :=
  fold_left (fun s p => add_test s (fst p) (snd p)) l s.

(** The suite made of exactly the given pairs, in order. *)
Definition suite_of (seg : list (string * pynum)) : Suite :=
  add_tests Suite_init seg.

(** The elements of [l] at the positions [i] with [(k + i) mod n = j]:
    with [k = 0], the share of bin [j] when the element at position [i]
    goes to bin [i mod n]. *)
Fixpoint every_nth {A : Type} (n j k : nat) (l : list A) : list A :=
  match l with
  | [] => []
  | x :: l' =>
      if k mod n =? j then x :: every_nth n j (S k) l'
      else every_nth n j (S k) l'
  end.

Definition round_robin_share {A : Type} (n j : nat) (l : list A) : list A :=
  every_nth n j 0 l.

(** Starting from a bin whose runtime is [rt], every pair of [l] is added
    only when the runtime reached so far plus its duration, as the code
    computes it, does not exceed [max_time_seconds]. *)
Fixpoint later_fit (max_time_seconds rt : pynum) (l : list (string * pynum))
  : Prop :=
  match l with
  | [] => True
  | x :: l' =>
      py_gt (py_add rt (snd x)) max_time_seconds = false
      /\ later_fit max_time_seconds (py_add rt (snd x)) l'
  end.

(** Only the first test of a bin may exceed the budget. *)
Definition within_budget (max_time_seconds : pynum)
    (seg : list (string * pynum)) : Prop :=
  match seg with
  | [] => True
  | x :: l =>
      later_fit max_time_seconds (py_add (total_runtime Suite_init) (snd x)) l
  end.

(** What the statements on oversized tests use of the binary64 arithmetic
    (rounding to nearest, no overflow), [is_float] telling which rationals
    are binary64 numbers: a sum of floats with a non-negative operand is
    not below the other operand, sums of floats are floats, and the
    conversion of a non-negative int is a non-negative float. *)
Definition sound_rounding (is_float : Q -> Prop) : Prop :=
  (forall a c, is_float a -> is_float c -> 0 <= a -> c <= fadd a c)
  /\ (forall a c, is_float a -> is_float c -> 0 <= c -> a <= fadd a c)
  /\ (forall a c, is_float a -> is_float c -> is_float (fadd a c))
  /\ (forall z, (0 <= z)%Z ->
        is_float (fround (inject_Z z)) /\ 0 <= fround (inject_Z z)).

(** A non-negative duration: a float, or an int that [float()] converts
    without rounding. *)
Definition nonneg_number (is_float : Q -> Prop) (x : pynum) : Prop :=
  match x with
  | PyFloat c => is_float c /\ 0 <= c
  | PyInt z => (0 <= z)%Z /\ fround (inject_Z z) == inject_Z z
  end.

(** A runtime that is not negative, also as a float. *)
Definition runtime_ok (is_float : Q -> Prop) (rt : pynum) : Prop :=
  0 <= value rt /\ is_float (to_float rt) /\ 0 <= to_float rt.

(** The state in which the loop of [divide_tests_into_suites] ends. *)
Definition packed (tests_runtimes : list (string * pynum))
    (max_time_seconds : pynum) (max_suites : option Z) : pack_state :=
  pack_loop max_time_seconds max_suites tests_runtimes 0 [] Suite_init
    (length tests_runtimes).

(** A closed bin: not empty, and filled within the budget after its first
    test. *)
Definition good (max_time_seconds : pynum) (seg : list (string * pynum))
  : Prop :=
  seg <> [] /\ within_budget max_time_seconds seg.

(** The weighted-average merge of two samples, as the specification words
    it. *)
Definition merge (a b : runtime_info) : runtime_info :=
  mkInfo ((duration a * inject_Z (num_run a) + duration b * inject_Z (num_run b))
          / inject_Z (num_run a + num_run b))
         (num_run a + num_run b)%Z.

(** The samples merged so far ([cur], absent or empty when there is none)
    extended with one more. *)
Definition merge_into (cur : option inner_dict) (b : runtime_info)
  : option inner_dict :=
  match cur with
  | Some (Some a) => Some (Some (merge a b))
  | _ => Some (Some b)
  end.

(** The keys of a sequence in the order of their first occurrence, after
    the keys already [seen]. *)
Fixpoint first_occurrences (seen : list string) (l : list string)
  : list string :=
  match l with
  | [] => []
  | x :: l' =>
      if existsb (String.eqb x) seen then first_occurrences seen l'
      else x :: first_occurrences (seen ++ [x]) l'
  end.

Definition encounter_order (l : list string) : list string :=
  first_occurrences [] l.

(** The non-empty entry of a key, if any. *)
Definition entry_of (d : dict) (k : string) : option runtime_info :=
  match dict_get d k with
  | Some (Some ri) => Some ri
  | _ => None
  end.



Definition is_http_error (e : exn) : bool :=
  match e with
  | HTTPError _ => true
  | _ => false
  end.

(** The tests handed to [add_test] by the fallback loop, with their
    weight. *)
Definition zero_weight (l : list string) : list (string * pynum) :=
  map (fun t => (t, PyInt 0)) l.

(** A dict all of whose inner dicts are filled. *)
Definition populated (d : dict) : Prop :=
  Forall (fun kv => snd kv <> None) d.

(** Every filled entry of a dict counts at least one run. *)
Definition positive_runs (d : dict) : Prop :=
  forall k ri, dict_get d k = Some (Some ri) -> (1 <= num_run ri)%Z.

Section GeneratorVocabulary.

Variable normalize_test_file : string -> string.
Variable is_resmoke_hook : string -> bool.
Variable split_test_hook_name : string -> string * string.
Variable get_short_name_from_test_file : string -> string.

(** The sample a document contributes. *)
Definition sample_of (d : doc) : runtime_info :=
  mkInfo (avg_duration_pass d) (num_pass d).

(** The documents ingested as samples of the test [t], in order. *)
Definition test_docs (docs : list doc) (t : string) : list doc :=
  filter (fun d =>
            let f := normalize_test_file (test_file d) in
            negb (is_resmoke_hook f) && String.eqb f t) docs.

(** The documents ingested as hook samples of the test name [name], in
    order. *)
Definition hook_docs (docs : list doc) (name : string) : list doc :=
  filter (fun d =>
            let f := normalize_test_file (test_file d) in
            is_resmoke_hook f
            && String.eqb (fst (split_test_hook_name f)) name) docs.

(** The samples of a run of documents merged one after the other, in
    order, starting from what is there already. *)
Definition merge_all (cur : option inner_dict) (docs : list doc)
  : option inner_dict :=
  fold_left (fun cur d => merge_into cur (sample_of d)) docs cur.

(** The normalized names of the documents that are tests, not hooks, in
    ingestion order. *)
Definition test_names (docs : list doc) : list string :=
  map (fun d => normalize_test_file (test_file d))
    (filter (fun d => negb (is_resmoke_hook (normalize_test_file (test_file d))))
       docs).

(** The filled entry with which [_add_stats] merges the document [d], if
    there is one. *)
Definition target_entry (self : TestStats) (d : doc) : option runtime_info :=
  let f := normalize_test_file (test_file d) in
  if is_resmoke_hook f
  then entry_of (_hook_runtime_by_test self) (fst (split_test_hook_name f))
  else entry_of (_runtime_by_test self) f.

(** The duration reported for a test: its own, plus its hook's when the
    hook mapping has a filled entry for its short name. *)
Definition combined_duration (hooks : dict) (t : string) (ri : runtime_info)
  : Q :=
  match entry_of hooks (get_short_name_from_test_file t) with
  | Some h => duration ri + duration h
  | None => duration ri
  end.

(** The entry of the unsorted list that an item of the test mapping
    yields. *)
Definition reported (hooks : dict) (kv : string * inner_dict)
    (p : string * Q) : Prop :=
  fst p = fst kv
  /\ exists ri, snd kv = Some ri
     /\ snd p = combined_duration hooks
                  (fst kv) ri.

End GeneratorVocabulary.

(** ** Vocabulary of the further properties *)

(** The pair [x] does not fit in the bin holding [seg]: the test of the
    packing loop. *)
Definition overflows (max_time_seconds : pynum)
    (seg : list (string * pynum)) (x : string * pynum) : Prop :=
  py_gt (py_add (get_runtime (suite_of seg)) (snd x)) max_time_seconds = true.

(** In a sequence of bins, the first test of every bin but the first did
    not fit in the bin before it. *)
Fixpoint closed_when_full (max_time_seconds : pynum)
    (segs : list (list (string * pynum))) : Prop :=
  match segs with
  | [] => True
  | a :: rest =>
      match rest with
      | [] => True
      | b :: _ =>
          match b with
          | [] => False
          | x :: _ => overflows max_time_seconds a x
          end
          /\ closed_when_full max_time_seconds rest
      end
  end.

(** The runs counted by a sequence of documents. *)
Definition total_runs (docs : list doc) : Z :=
  fold_right (fun d a => (num_pass d + a)%Z) 0%Z docs.

(** ** Sample inputs *)

(** A test with one sample of 5 s and a hook of it with one sample of
    2 s, and the object [TestStats] builds from them. *)
Definition foo_docs : list doc :=
  [mkDoc "jstests/core/foo.js" 5 1; mkDoc "foo:CheckReplDBHash" 2 1].

Definition foo_stats : TestStats :=
  mkStats [("jstests/core/foo.js"%string, Some (mkInfo 5 1))]
          [("foo"%string, Some (mkInfo 2 1))].

(** Three tests, two of them with the same duration. *)
Definition tie_docs : list doc :=
  [mkDoc "a.js" 5 1; mkDoc "b.js" 7 1; mkDoc "c.js" 5 1].

Definition tie_stats : TestStats :=
  mkStats [("a.js"%string, Some (mkInfo 5 1));
           ("b.js"%string, Some (mkInfo 7 1));
           ("c.js"%string, Some (mkInfo 5 1))] [].

(** Two samples of one test, then a sample of a hook. *)
Definition merge_docs : list doc :=
  [mkDoc "a.js" 10 5; mkDoc "a.js" 20 5; mkDoc "a:Hook" 2 1].

(** A generator whose statistics source is degraded. *)
Definition degraded_main : Main :=
  mkMain (fun _ _ => Raise (HTTPError 503)) 2 None 60
    ["a"; "b"; "c"]%string [].

(** * Properties *)

Local Close Scope Q_scope.

(** ** Lists updated in place *)

Lemma length_list_set {A : Type} (l : list A) (i : nat) (x : A) :
  length (list_set l i x) = length l.
Proof.
  revert i; induction l as [|y l IH]; intros [|i]; simpl; auto.
Qed.

Lemma nth_error_list_set_eq {A : Type} (l : list A) (i : nat) (x : A) :
  i < length l -> nth_error (list_set l i x) i = Some x.
Proof.
  revert i; induction l as [|y l IH]; intros [|i] Hi; simpl in *;
    try lia; auto.
  apply IH; lia.
Qed.

Lemma nth_error_list_set_ne {A : Type} (l : list A) (i j : nat) (x : A) :
  i <> j -> nth_error (list_set l i x) j = nth_error l j.
Proof.
  revert i j; induction l as [|y l IH]; intros [|i] [|j] Hij; simpl;
    try congruence; auto.
Qed.

Lemma list_set_split {A : Type} (l : list A) (i : nat) (x y : A) :
  nth_error l i = Some y ->
  exists l1 l2, l = l1 ++ y :: l2 /\ list_set l i x = l1 ++ x :: l2.
Proof.
  revert i; induction l as [|z l IH]; intros [|i] H; simpl in *;
    try discriminate.
  - injection H as ->. exists [], l. auto.
  - destruct (IH _ H) as (l1 & l2 & -> & E).
    exists (z :: l1), l2. simpl. rewrite E. auto.
Qed.

(** ** Suites *)

Lemma add_tests_app (s : Suite) (l1 l2 : list (string * pynum)) :
  add_tests s (l1 ++ l2) = add_tests (add_tests s l1) l2.
Proof. apply fold_left_app. Qed.

Lemma tests_add_tests (s : Suite) (l : list (string * pynum)) :
  tests (add_tests s l) = tests s ++ map fst l.
Proof.
  revert s; induction l as [|x l IH]; intros s; simpl.
  - now rewrite app_nil_r.
  - change (add_tests s (x :: l))
      with (add_tests (add_test s (fst x) (snd x)) l).
    rewrite IH. simpl. now rewrite <- app_assoc.
Qed.

Lemma tests_suite_of (seg : list (string * pynum)) :
  tests (suite_of seg) = map fst seg.
Proof. unfold suite_of. now rewrite tests_add_tests. Qed.

Lemma suite_of_snoc (seg : list (string * pynum)) (t : string) (r : pynum) :
  add_test (suite_of seg) t r = suite_of (seg ++ [(t, r)]).
Proof. unfold suite_of. now rewrite add_tests_app. Qed.

Lemma test_count_suite_of (seg : list (string * pynum)) :
  (0 <? get_test_count (suite_of seg)) = negb (match seg with [] => true | _ => false end).
Proof.
  unfold get_test_count. rewrite tests_suite_of.
  destruct seg; reflexivity.
Qed.

Lemma all_tests_app (l1 l2 : list Suite) :
  all_tests (l1 ++ l2) = all_tests l1 ++ all_tests l2.
Proof. unfold all_tests. now rewrite map_app, concat_app. Qed.

Lemma all_tests_suite_of (segs : list (list (string * pynum))) :
  all_tests (map suite_of segs) = map fst (concat segs).
Proof.
  unfold all_tests. induction segs as [|seg segs IH]; simpl; auto.
  now rewrite IH, tests_suite_of, map_app.
Qed.

(** ** Round-robin shares *)

Lemma every_nth_congr {A : Type} (n j : nat) (l : list A) :
  n <> 0%nat -> forall k k', k mod n = k' mod n ->
  every_nth n j k l = every_nth n j k' l.
Proof.
  intros Hn. induction l as [|x l IH]; intros k k' E; simpl; auto.
  rewrite E.
  assert (E' : S k mod n = S k' mod n).
  { change (S k) with (1 + k)%nat. change (S k') with (1 + k')%nat.
    rewrite (Nat.Div0.add_mod 1 k), (Nat.Div0.add_mod 1 k'), E; auto. }
  now rewrite (IH _ _ E').
Qed.

Lemma every_nth_beyond {A : Type} (n j : nat) (l : list A) :
  forall k, (k + length l <= j)%nat -> (j < n)%nat -> every_nth n j k l = [].
Proof.
  induction l as [|x l IH]; intros k Hk Hj; simpl in *; auto.
  rewrite Nat.mod_small by lia.
  destruct (Nat.eqb_spec k j); [lia|].
  apply IH; lia.
Qed.

(** ** The round-robin loop *)

Lemma divide_remaining_loop_spec (rem : list (string * pynum)) :
  forall (k : nat) (suites : list Suite),
    (k < length suites)%nat ->
    exists res,
      divide_remaining_loop rem k suites = Ok res
      /\ length res = length suites
      /\ forall j s, nth_error suites j = Some s ->
           nth_error res j
           = Some (add_tests s (every_nth (length suites) j k rem)).
Proof.
  induction rem as [|[t r] rem IH]; intros k suites Hk; simpl.
  - exists suites. repeat split; auto.
  - destruct (nth_error suites k) as [cur|] eqn:Hcur.
    2:{ apply nth_error_None in Hcur. lia. }
    set (suites' := list_set suites k (add_test cur t r)).
    assert (Hlen : length suites' = length suites)
      by apply length_list_set.
    set (k' := if (length suites' <=? S k)%nat then 0%nat else S k).
    assert (Hk' : (k' < length suites')%nat).
    { unfold k'. destruct (Nat.leb_spec (length suites') (S k)); lia. }
    assert (Hmod : S k mod length suites = k' mod length suites).
    { unfold k'. rewrite Hlen.
      destruct (Nat.leb_spec (length suites) (S k)); auto.
      assert (S k = length suites) as -> by lia.
      rewrite Nat.Div0.mod_same, Nat.Div0.mod_0_l; auto. }
    destruct (IH k' suites' Hk') as (res & Hres & Hl & Hnth).
    exists res. split; [exact Hres|]. split; [lia|].
    intros j s Hj. rewrite Nat.mod_small by lia.
    rewrite (every_nth_congr (length suites) j rem ltac:(lia) _ _ Hmod).
    rewrite <- Hlen.
    destruct (Nat.eqb_spec k j) as [->|Hne].
    + assert (s = cur) as -> by congruence.
      apply Hnth. unfold suites'. apply nth_error_list_set_eq. lia.
    + apply Hnth. unfold suites'.
      rewrite nth_error_list_set_ne; auto.
Qed.

Lemma all_tests_list_set (suites : list Suite) (k : nat) (cur : Suite)
    (t : string) (r : pynum) :
  nth_error suites k = Some cur ->
  Permutation (all_tests (list_set suites k (add_test cur t r)))
              (t :: all_tests suites).
Proof.
  intros H. destruct (list_set_split suites k (add_test cur t r) cur H)
    as (l1 & l2 & -> & ->).
  rewrite !all_tests_app. unfold all_tests at 2 4. simpl.
  rewrite <- !app_assoc. simpl.
  rewrite app_assoc. rewrite <- Permutation_middle.
  rewrite <- app_assoc. reflexivity.
Qed.

Lemma divide_remaining_loop_perm (rem : list (string * pynum)) :
  forall (k : nat) (suites res : list Suite),
    divide_remaining_loop rem k suites = Ok res ->
    Permutation (all_tests res) (all_tests suites ++ map fst rem).
Proof.
  induction rem as [|[t r] rem IH]; intros k suites res H; simpl in *.
  - injection H as <-. now rewrite app_nil_r.
  - destruct (nth_error suites k) as [cur|] eqn:Hcur; [|discriminate].
    apply IH in H. rewrite H.
    rewrite (all_tests_list_set _ _ _ t r Hcur).
    simpl. apply Permutation_middle.
Qed.

Lemma divide_remaining_loop_nonempty (rem : list (string * pynum)) :
  forall (k : nat) (suites res : list Suite),
    divide_remaining_loop rem k suites = Ok res ->
    Forall (fun s => tests s <> []) suites ->
    Forall (fun s => tests s <> []) res.
Proof.
  induction rem as [|[t r] rem IH]; intros k suites res H Hne; simpl in *.
  - now injection H as <-.
  - destruct (nth_error suites k) as [cur|] eqn:Hcur; [|discriminate].
    apply IH in H; auto.
    destruct (list_set_split suites k (add_test cur t r) cur Hcur)
      as (l1 & l2 & -> & ->).
    apply Forall_app in Hne as [H1 H2]. inversion H2; subst.
    apply Forall_app; split; auto. constructor; auto.
    simpl. destruct (tests cur); discriminate.
Qed.

(** ** The packing loop *)

Lemma total_runtime_add_tests (s : Suite) (l : list (string * pynum)) :
  total_runtime (add_tests s l)
  = fold_left (fun a p => py_add a (snd p)) l (total_runtime s).
Proof.
  revert s; induction l as [|x l IH]; intros s; [reflexivity|].
  exact (IH (add_test s (fst x) (snd x))).
Qed.

Lemma later_fit_snoc (max_time_seconds : pynum) (l : list (string * pynum))
    (t : string) (r : pynum) :
  forall rt,
    later_fit max_time_seconds rt l ->
    py_gt (py_add (fold_left (fun a p => py_add a (snd p)) l rt) r)
      max_time_seconds = false ->
    later_fit max_time_seconds rt (l ++ [(t, r)]).
Proof.
  induction l as [|x l IH]; intros rt Hl Hr; simpl in *.
  - auto.
  - destruct Hl as [H1 H2]. split; auto.
Qed.

Lemma within_budget_snoc (max_time_seconds : pynum)
    (seg : list (string * pynum))
    (t : string) (r : pynum) :
  within_budget max_time_seconds seg ->
  seg = []
  \/ py_gt (py_add (get_runtime (suite_of seg)) r) max_time_seconds = false ->
  within_budget max_time_seconds (seg ++ [(t, r)]).
Proof.
  intros Hw Hr. destruct seg as [|x l]; simpl in *; auto.
  destruct Hr as [Hr|Hr]; [discriminate|].
  apply later_fit_snoc; auto.
  unfold get_runtime, suite_of in Hr.
  rewrite total_runtime_add_tests in Hr. exact Hr.
Qed.

Lemma Qgt_bool_false (a b : Q) : Qgt_bool a b = false -> (a <= b)%Q.
Proof.
  unfold Qgt_bool. intros H. apply negb_false_iff in H.
  now apply Qle_bool_iff.
Qed.


Lemma pack_loop_segments (max_time_seconds : pynum) (max_suites : option Z)
    (todo : list (string * pynum)) :
  forall (idx : nat) (segs : list (list (string * pynum)))
         (curseg : list (string * pynum)) (last : nat),
    Forall (good max_time_seconds) segs ->
    within_budget max_time_seconds curseg ->
    exists segs' curseg' k,
      let st := pack_loop max_time_seconds max_suites todo idx
                  (map suite_of segs) (suite_of curseg) last in
      ps_suites st = map suite_of segs'
      /\ ps_current st = suite_of curseg'
      /\ Forall (good max_time_seconds) segs'
      /\ within_budget max_time_seconds curseg'
      /\ concat segs' ++ curseg' = concat segs ++ curseg ++ firstn k todo
      /\ ((ps_last st = last /\ k = length todo)
          \/ (ps_last st = idx + k /\ k < length todo /\ curseg' = []
              /\ segs' <> [] /\ truthy max_suites = true)).
Proof.
  induction todo as [|[t r] rest IH]; intros idx segs curseg last Hs Hc.
  - exists segs, curseg, 0. simpl. repeat split; auto.
    now rewrite app_nil_r.
  - cbn [pack_loop].
    destruct (py_gt (py_add (get_runtime (suite_of curseg)) r)
                max_time_seconds) eqn:Hgt.
    + rewrite test_count_suite_of. destruct curseg as [|p curseg]; cbn [negb].
      * destruct (IH (S idx) segs [(t, r)] last Hs I)
          as (segs' & curseg' & k & H1 & H2 & H3 & H4 & H5 & H6).
        exists segs', curseg', (S k). cbn zeta in *.
        change (add_test (suite_of []) t r) with (suite_of [(t, r)]).
        repeat split; auto.
        destruct H6 as [[-> ->]|(-> & Hk & -> & Hne & Ht)];
          [left|right]; simpl; repeat split; auto; lia.
      * assert (Hs' : Forall (good max_time_seconds) (segs ++ [p :: curseg])).
        { apply Forall_app. split; auto. constructor; auto.
          split; auto. discriminate. }
        assert (Hm : map suite_of segs ++ [suite_of (p :: curseg)]
                     = map suite_of (segs ++ [p :: curseg])).
        { now rewrite map_app. }
        rewrite Hm.
        destruct (truthy max_suites
                  && len_ge (map suite_of (segs ++ [p :: curseg])) max_suites)
          eqn:Hstop.
        -- exists (segs ++ [p :: curseg]), [], 0. cbn zeta. simpl.
           apply andb_true_iff in Hstop as [Ht _].
           repeat split; auto.
           ++ rewrite concat_app. simpl. now rewrite !app_nil_r.
           ++ right. repeat split; auto; try lia.
              destruct segs; discriminate.
        -- destruct (IH (S idx) (segs ++ [p :: curseg]) [(t, r)] last Hs' I)
             as (segs' & curseg' & k & H1 & H2 & H3 & H4 & H5 & H6).
           exists segs', curseg', (S k). cbn zeta in *.
           change (add_test Suite_init t r) with (suite_of [(t, r)]).
           repeat split; auto.
           ++ rewrite H5, concat_app. simpl.
              rewrite app_nil_r, <- app_assoc. reflexivity.
           ++ destruct H6 as [[-> ->]|(-> & Hk & -> & Hne & Ht)];
                [left|right]; simpl; repeat split; auto; lia.
    + assert (Hc' : within_budget max_time_seconds (curseg ++ [(t, r)])).
      { apply within_budget_snoc; auto. }
      destruct (IH (S idx) segs (curseg ++ [(t, r)]) last Hs Hc')
        as (segs' & curseg' & k & H1 & H2 & H3 & H4 & H5 & H6).
      exists segs', curseg', (S k). cbn zeta in *.
      rewrite suite_of_snoc.
      repeat split; auto.
      * rewrite H5, <- !app_assoc. reflexivity.
      * destruct H6 as [[-> ->]|(-> & Hk & -> & Hne & Ht)];
          [left|right]; simpl; repeat split; auto; lia.
Qed.

(** The two ways [divide_tests_into_suites] ends: the loop ran to the end
    and its suites are returned, or it stopped early at a position [k]
    with a fresh current suite and hands the tests from [k] on to the
    round-robin loop. *)
Lemma divide_tests_cases (tests_runtimes : list (string * pynum))
    (max_time_seconds : pynum) (max_suites : option Z) :
  let st := packed tests_runtimes max_time_seconds max_suites in
  exists segs,
    close_current st = map suite_of segs
    /\ Forall (good max_time_seconds) segs
    /\ concat segs = firstn (ps_last st) tests_runtimes
    /\ ((ps_last st = length tests_runtimes
         /\ divide_tests_into_suites tests_runtimes max_time_seconds max_suites
            = Ok (map suite_of segs))
        \/ (ps_last st < length tests_runtimes
            /\ segs <> []
            /\ ps_suites st = map suite_of segs
            /\ divide_tests_into_suites tests_runtimes max_time_seconds
                 max_suites
               = divide_remaining_tests_among_suites
                   (skipn (ps_last st) tests_runtimes) (map suite_of segs))).
Proof.
  intros st.
  destruct (pack_loop_segments max_time_seconds max_suites tests_runtimes
              0 [] [] (length tests_runtimes) (Forall_nil _) I)
    as (segs' & curseg' & k & H1 & H2 & H3 & H4 & H5 & H6).
  cbn zeta in *. change (map suite_of []) with (@nil Suite) in *.
  change (suite_of []) with Suite_init in *.
  fold (packed tests_runtimes max_time_seconds max_suites) in *.
  fold st in H1, H2, H6.
  simpl in H5.
  unfold divide_tests_into_suites.
  fold (packed tests_runtimes max_time_seconds max_suites). fold st.
  unfold close_current. rewrite H1, H2, test_count_suite_of.
  destruct H6 as [[Hl ->]|(Hl & Hk & -> & Hne & Ht)].
  - rewrite Hl, Nat.ltb_irrefl, andb_false_r, firstn_all in *.
    destruct curseg' as [|p c]; cbn [negb].
    + exists segs'. rewrite app_nil_r in H5. repeat split; auto.
    + exists (segs' ++ [p :: c]). rewrite map_app. simpl.
      repeat split; auto.
      * apply Forall_app. split; auto. constructor; auto.
        split; auto. discriminate.
      * rewrite concat_app. simpl. now rewrite app_nil_r.
  - simpl in Hl. rewrite Hl, Ht. cbn [negb].
    rewrite app_nil_r in H5.
    exists segs'. repeat split; auto.
    right. repeat split; auto.
    destruct (Nat.ltb_spec k (length tests_runtimes)); [|lia].
    reflexivity.
Qed.

Lemma divide_remaining_ok (rem : list (string * pynum)) (suites : list Suite) :
  suites <> [] ->
  exists res,
    divide_remaining_tests_among_suites rem suites = Ok res
    /\ length res = length suites
    /\ forall j s, nth_error suites j = Some s ->
         nth_error res j
         = Some (add_tests s (round_robin_share (length suites) j rem)).
Proof.
  intros Hne. apply divide_remaining_loop_spec.
  destruct suites; [congruence|simpl; lia].
Qed.

(** C1.  [divide_tests_into_suites] always returns, and the tests of the
    returned bins, taken together, are exactly the input tests as a
    multiset: no test is dropped and none is placed twice, whether or not
    the [max_suites] early stop and its round-robin distribution take
    place.  (Holds for every input list, every [max_time_seconds] and every
    [max_suites]; the non-empty list and positive budget of the claim are
    a special case.) *)
Theorem divide_tests_into_suites_partition
    (tests_runtimes : list (string * pynum)) (max_time_seconds : pynum)
    (max_suites : option Z) :
  exists suites,
    divide_tests_into_suites tests_runtimes max_time_seconds max_suites
    = Ok suites
    /\ Permutation (all_tests suites) (map fst tests_runtimes).
Proof.
  destruct (divide_tests_cases tests_runtimes max_time_seconds max_suites)
    as (segs & Hc & Hg & Hcat & [[Hl Hres]|(Hl & Hne & Hs & Hres)]).
  - exists (map suite_of segs). split; auto.
    rewrite all_tests_suite_of, Hcat, Hl, firstn_all. reflexivity.
  - destruct (divide_remaining_ok
                (skipn (ps_last (packed tests_runtimes max_time_seconds
                                   max_suites)) tests_runtimes)
                (map suite_of segs)) as (res & Hok & _ & _).
    { destruct segs; [congruence|discriminate]. }
    exists res. split; [congruence|].
    apply divide_remaining_loop_perm in Hok. rewrite Hok.
    rewrite all_tests_suite_of, Hcat, <- map_app, firstn_skipn.
    reflexivity.
Qed.

(** C2.  When the loop of [divide_tests_into_suites] stops early (its
    [last_test_processed] is a position inside the input), the function
    returns the bins the loop had closed, in the same order, each topped up
    with its round-robin share of the tests from the stop point on: the
    leftover test at position [i] goes to bin [i mod n], [n] the number of
    bins, starting at bin 0.  For [(A,100),(B,100),(C,100),(D,100)] with a
    budget of 150 and at most 2 bins the result is the bins [A, C] and
    [B, D]. *)
Theorem early_stop_round_robin :
  (forall (tests_runtimes : list (string * pynum)) (max_time_seconds : pynum)
          (max_suites : option Z),
      let st := packed tests_runtimes max_time_seconds max_suites in
      let leftover := skipn (ps_last st) tests_runtimes in
      let n := length (ps_suites st) in
      ps_last st < length tests_runtimes ->
      exists suites,
        divide_tests_into_suites tests_runtimes max_time_seconds max_suites
        = Ok suites
        /\ 0 < n
        /\ length suites = n
        /\ forall j s, nth_error (ps_suites st) j = Some s ->
             nth_error suites j
             = Some (add_tests s (round_robin_share n j leftover)))
  /\ divide_tests_into_suites
       [("A"%string, PyInt 100); ("B"%string, PyInt 100);
        ("C"%string, PyInt 100); ("D"%string, PyInt 100)] (PyInt 150)
       (Some 2%Z)
     = Ok [mkSuite ["A"%string; "C"%string] (PyInt 200);
           mkSuite ["B"%string; "D"%string] (PyInt 200)].
Proof.
  split; [|reflexivity].
  intros tests_runtimes max_time_seconds max_suites st leftover n Hstop.
  destruct (divide_tests_cases tests_runtimes max_time_seconds max_suites)
    as (segs & Hc & Hg & Hcat & [[Hl Hres]|(Hl & Hne & Hs & Hres)]).
  - fold st in Hl. lia.
  - fold st in Hs, Hres. fold leftover in Hres.
    destruct (divide_remaining_ok leftover (map suite_of segs))
      as (res & Hok & Hlen & Hnth).
    { destruct segs; [congruence|discriminate]. }
    unfold n. rewrite Hs.
    exists res. repeat split; auto; try congruence.
    destruct segs; [congruence|simpl; lia].
Qed.

(** ** The budget *)

Lemma later_fit_split (max_time_seconds : pynum)
    (pre : list (string * pynum)) :
  forall (rt : pynum) (l : list (string * pynum)) (x : string * pynum)
         (post : list (string * pynum)),
    later_fit max_time_seconds rt l ->
    l = pre ++ x :: post ->
    py_gt (py_add (fold_left (fun a p => py_add a (snd p)) pre rt) (snd x))
      max_time_seconds = false.
Proof.
  induction pre as [|y pre IH]; intros rt l x post Hl ->; simpl in *.
  - tauto.
  - destruct Hl as [_ Hl]. eapply IH; eauto.
Qed.

Lemma within_budget_split (max_time_seconds : pynum)
    (seg pre post : list (string * pynum)) (x : string * pynum) :
  within_budget max_time_seconds seg ->
  seg = pre ++ x :: post ->
  pre <> [] ->
  py_gt (py_add (get_runtime (suite_of pre)) (snd x)) max_time_seconds
  = false.
Proof.
  intros Hw -> Hpre. destruct pre as [|p pre]; [congruence|].
  simpl in Hw. unfold get_runtime, suite_of.
  rewrite total_runtime_add_tests.
  exact (later_fit_split max_time_seconds pre _ _ x post Hw eq_refl).
Qed.

Lemma inject_Z_nonneg (z : Z) : (0 <= z)%Z -> (0 <= inject_Z z)%Q.
Proof.
  intros H. change 0%Q with (inject_Z 0). rewrite <- Zle_Qle. exact H.
Qed.

(** Adding a non-negative duration to a runtime that is not negative
    gives a runtime that is not negative and not below the duration. *)
Lemma py_add_ok (is_float : Q -> Prop) (rt x : pynum) :
  sound_rounding is_float ->
  runtime_ok is_float rt -> nonneg_number is_float x ->
  runtime_ok is_float (py_add rt x)
  /\ (value x <= value (py_add rt x))%Q.
Proof.
  intros (F1 & F2 & F3 & F4) (Hv & Hf & Ht) Hx.
  destruct rt as [a|r], x as [b|c]; simpl in *.
  - destruct Hx as [Hb _].
    assert (Ha : (0 <= a)%Z).
    { change 0%Q with (inject_Z 0) in Hv. rewrite <- Zle_Qle in Hv.
      exact Hv. }
    destruct (F4 (a + b)%Z ltac:(lia)) as [G1 G2].
    repeat split; auto.
    + apply inject_Z_nonneg. lia.
    + rewrite <- Zle_Qle. lia.
  - destruct Hx as [Hc Hc0].
    assert (H1 := F1 _ c Hf Hc Ht).
    repeat split; cbn [value to_float]; try (apply F3; assumption); lra.
  - destruct Hx as [Hb Hb'].
    destruct (F4 b Hb) as [G1 G2].
    assert (H1 := F1 _ _ Hf G1 Ht).
    repeat split; cbn [value to_float]; try (apply F3; assumption); lra.
  - destruct Hx as [Hc Hc0].
    assert (H1 := F1 _ c Hf Hc Ht).
    repeat split; cbn [value to_float]; try (apply F3; assumption); lra.
Qed.

(** Adding a non-negative duration to a runtime that converts to a float
    without rounding does not give less than the runtime. *)
Lemma py_add_ge_l (is_float : Q -> Prop) (rt x : pynum) :
  sound_rounding is_float ->
  is_float (to_float rt) -> (to_float rt == value rt)%Q ->
  nonneg_number is_float x ->
  (value rt <= value (py_add rt x))%Q.
Proof.
  intros (F1 & F2 & F3 & F4) Hf He Hx.
  destruct rt as [a|r], x as [b|c]; simpl in *.
  - destruct Hx as [Hb _]. rewrite <- Zle_Qle. lia.
  - destruct Hx as [Hc Hc0]. assert (H2 := F2 _ c Hf Hc Hc0). lra.
  - destruct Hx as [Hb _]. destruct (F4 b Hb) as [G1 G2].
    assert (H2 := F2 _ _ Hf G1 G2). lra.
  - destruct Hx as [Hc Hc0]. assert (H2 := F2 _ c Hf Hc Hc0). lra.
Qed.

Lemma runtime_ok_init (is_float : Q -> Prop) :
  sound_rounding is_float -> runtime_ok is_float (total_runtime Suite_init).
Proof.
  intros (_ & _ & _ & F4). destruct (F4 0%Z ltac:(lia)) as [G1 G2].
  split; [apply Qle_refl|]. split; [exact G1|exact G2].
Qed.

Lemma fold_runtime_ok (is_float : Q -> Prop) (l : list (string * pynum)) :
  sound_rounding is_float ->
  forall rt : pynum,
    Forall (fun p => nonneg_number is_float (snd p)) l ->
    runtime_ok is_float rt ->
    runtime_ok is_float (fold_left (fun a p => py_add a (snd p)) l rt).
Proof.
  intros Hround.
  induction l as [|x l IH]; intros rt Hl Hrt; simpl; auto.
  inversion Hl as [|? ? Hx Hl']; subst.
  apply IH; auto. now apply py_add_ok.
Qed.

Lemma oversized_alone (is_float : Q -> Prop) (max_time_seconds : pynum)
    (seg : list (string * pynum)) (p : string * pynum) :
  sound_rounding is_float ->
  Forall (fun p => nonneg_number is_float (snd p)) seg ->
  within_budget max_time_seconds seg ->
  In p seg -> (value max_time_seconds < value (snd p))%Q -> seg = [p].
Proof.
  intros Hround Hnn Hw Hin Hbig.
  destruct (in_split _ _ Hin) as (pre & post & ->).
  assert (Hp : nonneg_number is_float (snd p)).
  { rewrite Forall_forall in Hnn. apply (Hnn p Hin). }
  destruct pre as [|y pre].
  - destruct post as [|z post]; auto. exfalso.
    assert (H := within_budget_split max_time_seconds _ [p] post z Hw
                   eq_refl ltac:(discriminate)).
    inversion Hnn as [|? ? _ Hnn']; subst.
    inversion Hnn' as [|? ? Hz _]; subst.
    unfold get_runtime, suite_of in H.
    change (total_runtime (add_tests Suite_init [p]))
      with (py_add (PyInt 0) (snd p)) in H.
    apply Qgt_bool_false in H.
    destruct (py_add_ok is_float (PyInt 0) (snd p) Hround
                (runtime_ok_init is_float Hround) Hp)
      as [(_ & Hf & _) H1].
    assert (H2 : (value (py_add (PyInt 0) (snd p))
                  <= value (py_add (py_add (PyInt 0) (snd p)) (snd z)))%Q).
    { apply (py_add_ge_l is_float); auto.
      destruct (snd p) as [b|c]; simpl in *; [tauto|reflexivity]. }
    lra.
  - exfalso.
    assert (H := within_budget_split max_time_seconds _ (y :: pre) post p Hw
                   eq_refl ltac:(discriminate)).
    unfold get_runtime, suite_of in H. rewrite total_runtime_add_tests in H.
    apply Forall_app in Hnn as [Hpre _].
    assert (Hok := fold_runtime_ok is_float (y :: pre) Hround
                     (total_runtime Suite_init) Hpre
                     (runtime_ok_init is_float Hround)).
    set (R := fold_left (fun a q => py_add a (snd q)) (y :: pre)
                (total_runtime Suite_init)) in *.
    apply Qgt_bool_false in H.
    destruct (py_add_ok is_float R (snd p) Hround Hok Hp) as [_ H1].
    lra.
Qed.

(** C3.  The bins the packing loop produces are consecutive runs of the
    input, in order, none of them empty.  In each of them every test after
    the first was appended only when the runtime of the tests before it
    plus its own duration, as the code adds them, did not exceed
    [max_time_seconds]: only the first test of a bin can make the bin
    exceed the budget.  When the durations are non-negative (floats, or
    ints that convert to floats without rounding), a test whose duration
    alone exceeds the budget is the only test of its bin (this uses that
    the rounded addition of a non-negative float never gives less than
    the other operand).  The bins of the returned list
    that the round-robin distribution did not top up (all of them when
    there was no early stop, and otherwise those at positions from the
    number of leftover tests on) are these bins, unchanged.  (The
    positivity of the budget is not needed.) *)
Theorem bins_within_budget (is_float : Q -> Prop)
    (tests_runtimes : list (string * pynum)) (max_time_seconds : pynum)
    (max_suites : option Z) :
  sound_rounding is_float ->
  Forall (fun p => nonneg_number is_float (snd p)) tests_runtimes ->
  let st := packed tests_runtimes max_time_seconds max_suites in
  let leftover := skipn (ps_last st) tests_runtimes in
  exists segs suites,
    concat segs = firstn (ps_last st) tests_runtimes
    /\ close_current st = map suite_of segs
    /\ divide_tests_into_suites tests_runtimes max_time_seconds max_suites
       = Ok suites
    /\ (forall j, length leftover <= j ->
          nth_error suites j = nth_error (map suite_of segs) j)
    /\ Forall
         (fun seg =>
            seg <> []
            /\ (forall pre x post,
                  seg = pre ++ x :: post -> pre <> [] ->
                  (value (py_add (get_runtime (suite_of pre)) (snd x))
                   <= value max_time_seconds)%Q)
            /\ (forall p,
                  In p seg -> (value max_time_seconds < value (snd p))%Q ->
                  seg = [p]))
         segs.
Proof.
  intros Hround Hnn st leftover.
  destruct (divide_tests_cases tests_runtimes max_time_seconds max_suites)
    as (segs & Hc & Hg & Hcat & Hcases).
  fold st in Hc, Hcat, Hcases.
  assert (Hsegs :
    Forall
      (fun seg =>
         seg <> []
         /\ (forall pre x post,
               seg = pre ++ x :: post -> pre <> [] ->
               (value (py_add (get_runtime (suite_of pre)) (snd x))
                <= value max_time_seconds)%Q)
         /\ (forall p,
               In p seg -> (value max_time_seconds < value (snd p))%Q ->
               seg = [p]))
      segs).
  { apply Forall_forall. intros seg Hseg.
    rewrite Forall_forall in Hg. destruct (Hg seg Hseg) as [Hne Hw].
    split; auto. split.
    - intros pre x post E Hpre. apply Qgt_bool_false.
      exact (within_budget_split max_time_seconds seg pre post x Hw E Hpre).
    - intros p Hp Hbig.
      apply (oversized_alone is_float max_time_seconds); auto.
      apply Forall_forall. intros q Hq.
      rewrite Forall_forall in Hnn. apply Hnn.
      rewrite <- (firstn_skipn (ps_last st) tests_runtimes).
      apply in_or_app. left. rewrite <- Hcat.
      apply in_concat. exists seg. auto. }
  destruct Hcases as [[Hl Hres]|(Hl & Hne & Hs & Hres)].
  - exists segs, (map suite_of segs). repeat split; auto.
  - fold leftover in Hres.
    destruct (divide_remaining_ok leftover (map suite_of segs))
      as (res & Hok & Hlen & Hnth).
    { destruct segs; [congruence|discriminate]. }
    exists segs, res. repeat split; auto; try congruence.
    intros j Hj.
    destruct (nth_error (map suite_of segs) j) as [s|] eqn:Hs'.
    + rewrite (Hnth j s Hs'). unfold round_robin_share.
      rewrite every_nth_beyond; auto.
      apply nth_error_Some. congruence.
    + apply nth_error_None. apply nth_error_None in Hs'. lia.
Qed.

(** ** The fallback partition *)

Lemma list_getitem_nat {A : Type} (l : list A) (m : nat) (x : A) :
  nth_error l m = Some x -> list_getitem l (Z.of_nat m) = Ok (m, x).
Proof.
  intros H. unfold list_getitem.
  destruct (Z.ltb_spec (Z.of_nat m) 0); [lia|].
  destruct (Z.ltb_spec (Z.of_nat m) 0); [lia|].
  now rewrite Nat2Z.id, H.
Qed.

Lemma py_mod_nat (idx n : nat) :
  0 < n -> py_mod (Z.of_nat idx) (Z.of_nat n) = Ok (Z.of_nat (idx mod n)).
Proof.
  intros Hn. unfold py_mod.
  destruct (Z.eqb_spec (Z.of_nat n) 0); [lia|].
  now rewrite Nat2Z.inj_mod.
Qed.

Lemma fallback_loop_spec (n : nat) (todo : list string) :
  0 < n ->
  forall (idx : nat) (suites : list Suite),
    length suites = n ->
    exists res,
      fallback_loop (Z.of_nat n) todo idx suites = Ok res
      /\ length res = n
      /\ forall j s, nth_error suites j = Some s ->
           nth_error res j
           = Some (add_tests s (zero_weight (every_nth n j idx todo))).
Proof.
  intros Hn. induction todo as [|t todo IH]; intros idx suites Hlen.
  - exists suites. repeat split; auto.
  - cbn [fallback_loop]. rewrite py_mod_nat by assumption. cbn [bind].
    assert (Hlt : idx mod n < length suites).
    { rewrite Hlen. apply Nat.mod_upper_bound. lia. }
    destruct (nth_error suites (idx mod n)) as [cur|] eqn:Hcur.
    2:{ apply nth_error_None in Hcur. lia. }
    rewrite (list_getitem_nat _ _ _ Hcur). cbn [bind fst snd].
    destruct (IH (S idx)
                (list_set suites (idx mod n) (add_test cur t (PyInt 0))))
      as (res & Hres & Hl & Hnth).
    { now rewrite length_list_set. }
    exists res. repeat split; auto.
    intros j s Hj. cbn [every_nth].
    destruct (Nat.eqb_spec (idx mod n) j) as [<-|Hne].
    + assert (s = cur) as -> by congruence.
      apply Hnth. now apply nth_error_list_set_eq.
    + apply Hnth. now rewrite nth_error_list_set_ne.
Qed.

Lemma add_tests_zero_weight (ts l : list string) :
  add_tests (mkSuite ts (PyInt 0)) (zero_weight l)
  = mkSuite (ts ++ l) (PyInt 0).
Proof.
  revert ts. induction l as [|t l IH]; intros ts.
  - simpl. now rewrite app_nil_r.
  - change (add_tests (mkSuite ts (PyInt 0)) (zero_weight (t :: l)))
      with (add_tests (mkSuite (ts ++ [t]) (PyInt 0)) (zero_weight l)).
    rewrite IH, <- app_assoc. reflexivity.
Qed.

Lemma nth_error_repeat {A : Type} (x : A) (n j : nat) :
  j < n -> nth_error (repeat x n) j = Some x.
Proof.
  revert j; induction n as [|n IH]; intros [|j] Hj; simpl; try lia; auto.
  apply IH. lia.
Qed.

Lemma fallback_suites_spec (self : Main) :
  (1 <= fallback_num_sub_suites self)%Z ->
  let n := Z.to_nat (fallback_num_sub_suites self) in
  exists suites,
    calculate_fallback_suites self = Ok suites
    /\ length suites = n
    /\ forall j, j < n ->
         nth_error suites j
         = Some (mkSuite (round_robin_share n j (list_tests self)) (PyInt 0)).
Proof.
  intros Hn n. unfold calculate_fallback_suites.
  fold n. rewrite <- (Z2Nat.id (fallback_num_sub_suites self)) by lia.
  fold n.
  destruct (fallback_loop_spec n (list_tests self) ltac:(lia) 0
              (repeat Suite_init n) (repeat_length _ _))
    as (res & Hres & Hl & Hnth).
  exists res. repeat split; auto.
  intros j Hj. rewrite (Hnth j Suite_init (nth_error_repeat _ _ _ Hj)).
  unfold Suite_init. now rewrite add_tests_zero_weight.
Qed.

Lemma every_nth_In {A : Type} (n : nat) (l : list A) :
  forall (k i : nat) (x : A),
    nth_error l i = Some x -> In x (every_nth n ((k + i) mod n) k l).
Proof.
  induction l as [|y l IH]; intros k [|i] x H; simpl in *; try discriminate.
  - injection H as ->. rewrite Nat.add_0_r, Nat.eqb_refl. now left.
  - specialize (IH (S k) i x H).
    replace (k + S i) with (S k + i) by lia.
    destruct (k mod n =? (S k + i) mod n); [right|]; exact IH.
Qed.

(** C7.  With [fallback_num_sub_suites >= 1], [calculate_fallback_suites]
    returns that many bins; bin [j] holds, in order, the tests whose
    position [i] in the listed tests satisfies [i mod num_bins = j], and
    every test is added with weight 0, so each bin's runtime is 0.  In
    particular the test at position [i] is in bin [i mod num_bins].  Ten
    tests [t0 .. t9] in 3 bins give [t0 t3 t6 t9], [t1 t4 t7], [t2 t5 t8]:
    sizes 4, 3, 3. *)
Theorem fallback_round_robin :
  (forall self : Main,
      (1 <= fallback_num_sub_suites self)%Z ->
      let n := Z.to_nat (fallback_num_sub_suites self) in
      exists suites,
        calculate_fallback_suites self = Ok suites
        /\ length suites = n
        /\ (forall j, j < n ->
              nth_error suites j
              = Some (mkSuite (round_robin_share n j (list_tests self))
                        (PyInt 0)))
        /\ (forall i t, nth_error (list_tests self) i = Some t ->
              exists s, nth_error suites (i mod n) = Some s
                        /\ In t (tests s) /\ total_runtime s = (PyInt 0)))
  /\ (forall api max_sub mins seen,
        calculate_fallback_suites
          (mkMain api 3 max_sub mins
             ["t0"; "t1"; "t2"; "t3"; "t4"; "t5"; "t6"; "t7"; "t8"; "t9"]%string
             seen)
        = Ok [mkSuite ["t0"; "t3"; "t6"; "t9"]%string (PyInt 0);
              mkSuite ["t1"; "t4"; "t7"]%string (PyInt 0);
              mkSuite ["t2"; "t5"; "t8"]%string (PyInt 0)]).
Proof.
  split; [|reflexivity].
  intros self Hn n.
  destruct (fallback_suites_spec self Hn) as (suites & Hok & Hlen & Hnth).
  fold n in Hlen, Hnth.
  exists suites. repeat split; auto.
  intros i t Hi.
  assert (Hlt : i mod n < n) by (apply Nat.mod_upper_bound; lia).
  eexists. split; [apply Hnth; exact Hlt|]. split; [|reflexivity].
  apply (every_nth_In n (list_tests self) 0 i t Hi).
Qed.

(** C10.  With [fallback_num_sub_suites >= 1] the fallback partition has
    exactly that many bins for every list of tests, the empty one
    included; the bins at positions from the number of tests on are
    suites as [Suite()] creates them (no test, runtime 0) and are part of
    the returned list.  [divide_tests_into_suites], on the contrary, never
    returns a bin without tests. *)
Theorem fallback_keeps_empty_bins :
  (forall self : Main,
      (1 <= fallback_num_sub_suites self)%Z ->
      let n := Z.to_nat (fallback_num_sub_suites self) in
      exists suites,
        calculate_fallback_suites self = Ok suites
        /\ length suites = n
        /\ forall j, length (list_tests self) <= j -> j < n ->
             nth_error suites j = Some Suite_init)
  /\ (forall (tests_runtimes : list (string * pynum)) (max_time_seconds : pynum)
             (max_suites : option Z),
        exists suites,
          divide_tests_into_suites tests_runtimes max_time_seconds max_suites
          = Ok suites
          /\ Forall (fun s => tests s <> []) suites).
Proof.
  split.
  - intros self Hn n.
    destruct (fallback_suites_spec self Hn) as (suites & Hok & Hlen & Hnth).
    fold n in Hlen, Hnth.
    exists suites. repeat split; auto.
    intros j Hj Hjn. rewrite (Hnth j Hjn). unfold round_robin_share.
    rewrite every_nth_beyond; auto.
  - intros tests_runtimes max_time_seconds max_suites.
    destruct (divide_tests_cases tests_runtimes max_time_seconds max_suites)
      as (segs & Hc & Hg & Hcat & Hcases).
    assert (Hne : Forall (fun s => tests s <> []) (map suite_of segs)).
    { apply Forall_map. eapply Forall_impl; [|exact Hg].
      intros seg [Hseg _]. rewrite tests_suite_of.
      destruct seg; [congruence|discriminate]. }
    destruct Hcases as [[Hl Hres]|(Hl & Hne' & Hs & Hres)].
    + exists (map suite_of segs). auto.
    + destruct (divide_remaining_ok
                  (skipn (ps_last (packed tests_runtimes max_time_seconds
                                     max_suites)) tests_runtimes)
                  (map suite_of segs)) as (res & Hok & _ & _).
      { destruct segs; [congruence|discriminate]. }
      exists res. split; [congruence|].
      eapply divide_remaining_loop_nonempty; eauto.
Qed.

(** ** Dictionaries *)

Lemma dict_get_set (d : dict) (k k' : string) (v : inner_dict) :
  dict_get (dict_set d k v) k'
  = if String.eqb k k' then Some v else dict_get d k'.
Proof.
  induction d as [|[k0 v0] d IH]; simpl.
  - destruct (String.eqb_spec k k'); auto.
  - destruct (String.eqb_spec k0 k) as [->|Hne]; simpl.
    + destruct (String.eqb_spec k k'); auto.
    + rewrite IH. destruct (String.eqb_spec k0 k') as [->|Hne'];
        destruct (String.eqb_spec k k'); auto. congruence.
Qed.

Lemma dict_set_set (d : dict) (k : string) (v v' : inner_dict) :
  dict_set (dict_set d k v) k v' = dict_set d k v'.
Proof.
  induction d as [|[k0 v0] d IH]; simpl.
  - now rewrite String.eqb_refl.
  - destruct (String.eqb_spec k0 k) as [->|Hne]; simpl.
    + now rewrite String.eqb_refl.
    + destruct (String.eqb_spec k0 k); [congruence|]. now rewrite IH.
Qed.

Lemma dict_get_None (d : dict) (k : string) :
  dict_get d k = None <-> existsb (String.eqb k) (keys d) = false.
Proof.
  induction d as [|[k0 v0] d IH]; simpl; [tauto|].
  rewrite (String.eqb_sym k k0).
  destruct (String.eqb k0 k); simpl; [split; discriminate|exact IH].
Qed.

Lemma keys_dict_set (d : dict) (k : string) (v : inner_dict) :
  keys (dict_set d k v)
  = if existsb (String.eqb k) (keys d) then keys d else keys d ++ [k].
Proof.
  induction d as [|[k0 v0] d IH]; simpl; auto.
  rewrite (String.eqb_sym k k0).
  destruct (String.eqb k0 k); simpl; auto.
  fold (keys (dict_set d k v)). rewrite IH.
  fold (keys d). destruct (existsb (String.eqb k) (keys d)); auto.
Qed.



Lemma existsb_eqb_In (k : string) (l : list string) :
  existsb (String.eqb k) l = true <-> In k l.
Proof.
  rewrite existsb_exists. split.
  - intros (x & Hx & E). apply String.eqb_eq in E. congruence.
  - intros H. exists k. split; auto. apply String.eqb_refl.
Qed.

Lemma NoDup_snoc (l : list string) (k : string) :
  NoDup l -> ~ In k l -> NoDup (l ++ [k]).
Proof.
  intros Hl Hk. apply NoDup_app; auto.
  - repeat constructor. simpl. tauto.
  - intros x Hx [<-|[]]. auto.
Qed.


Lemma first_occurrences_NoDup (l : list string) :
  forall seen, NoDup seen -> NoDup (seen ++ first_occurrences seen l).
Proof.
  induction l as [|y l IH]; intros seen Hs; simpl.
  - now rewrite app_nil_r.
  - destruct (existsb (String.eqb y) seen) eqn:E; auto.
    change (y :: first_occurrences (seen ++ [y]) l)
      with ([y] ++ first_occurrences (seen ++ [y]) l).
    rewrite app_assoc. apply IH. apply NoDup_snoc; auto.
    intros H. apply existsb_eqb_In in H. congruence.
Qed.

(** ** Merging samples *)

Lemma populated_dict_set (d : dict) (k : string) (ri : runtime_info) :
  populated d -> populated (dict_set d k (Some ri)).
Proof.
  unfold populated. induction d as [|[k0 v0] d IH]; simpl; intros H.
  - repeat constructor. discriminate.
  - inversion H; subst.
    destruct (String.eqb k0 k); constructor; auto. discriminate.
Qed.

Lemma add_runtime_info_unfold (d : dict) (k : string) (dur : Q) (n : Z) :
  _add_runtime_info d k dur n
  = match dict_get d k with
    | Some (Some ri) =>
        avg <- _average (duration ri) (num_run ri) dur n ;;
        Ok (dict_set d k (Some (mkInfo avg (num_run ri + n)%Z)))
    | _ => Ok (dict_set d k (Some (mkInfo dur n)))
    end.
Proof.
  unfold _add_runtime_info, defaultdict_getitem.
  destruct (dict_get d k) as [[ri|]|]; auto.
  now rewrite dict_set_set.
Qed.

Lemma add_runtime_info_Ok (d d' : dict) (k : string) (dur : Q) (n : Z) :
  _add_runtime_info d k dur n = Ok d' ->
  d' = dict_set d k
         (match merge_into (dict_get d k) (mkInfo dur n) with
          | Some v => v
          | None => None
          end)
  /\ dict_get d' k = merge_into (dict_get d k) (mkInfo dur n).
Proof.
  rewrite add_runtime_info_unfold. unfold merge_into.
  destruct (dict_get d k) as [[ri|]|] eqn:E.
  - unfold _average.
    destruct (Z.eqb_spec (num_run ri + n) 0); [discriminate|].
    cbn [bind]. intros [= <-]. split; [reflexivity|].
    now rewrite dict_get_set, String.eqb_refl.
  - intros [= <-]. split; [reflexivity|].
    now rewrite dict_get_set, String.eqb_refl.
  - intros [= <-]. split; [reflexivity|].
    now rewrite dict_get_set, String.eqb_refl.
Qed.

Section TestStatsProperties.

Variable normalize_test_file : string -> string.
Variable is_resmoke_hook : string -> bool.
Variable split_test_hook_name : string -> string * string.
Variable get_short_name_from_test_file : string -> string.

Local Abbreviation add_stats :=
  (_add_stats normalize_test_file is_resmoke_hook split_test_hook_name).
Local Abbreviation add_all :=
  (add_all_stats normalize_test_file is_resmoke_hook split_test_hook_name).
Local Abbreviation init :=
  (TestStats_init normalize_test_file is_resmoke_hook split_test_hook_name).
Local Abbreviation norm d := (normalize_test_file (test_file d)).

(** What one document does: it goes to exactly one of the two mappings. *)
Lemma add_stats_Ok (st st' : TestStats) (d : doc) :
  add_stats st d = Ok st' ->
  if is_resmoke_hook (norm d)
  then _runtime_by_test st' = _runtime_by_test st
       /\ _add_runtime_info (_hook_runtime_by_test st)
            (fst (split_test_hook_name (norm d)))
            (avg_duration_pass d) (num_pass d)
          = Ok (_hook_runtime_by_test st')
  else _hook_runtime_by_test st' = _hook_runtime_by_test st
       /\ _add_runtime_info (_runtime_by_test st) (norm d)
            (avg_duration_pass d) (num_pass d)
          = Ok (_runtime_by_test st').
Proof.
  unfold _add_stats.
  destruct (is_resmoke_hook (norm d));
    unfold _add_test_hook_stats, _add_test_stats;
    match goal with
    | |- context [_add_runtime_info ?a ?b ?c ?e] =>
        destruct (_add_runtime_info a b c e) as [d'|e']
    end; cbn [bind]; intros [= <-]; auto.
Qed.

Lemma add_runtime_info_other (d d' : dict) (k k' : string) (dur : Q) (n : Z) :
  _add_runtime_info d k dur n = Ok d' -> k <> k' ->
  dict_get d' k' = dict_get d k'.
Proof.
  intros H Hne. apply add_runtime_info_Ok in H as [-> _].
  rewrite dict_get_set.
  destruct (String.eqb_spec k k'); [contradiction|reflexivity].
Qed.

Lemma add_all_runtime (docs : list doc) :
  forall st st', add_all st docs = Ok st' ->
  forall t,
    dict_get (_runtime_by_test st') t
    = merge_all (dict_get (_runtime_by_test st) t)
        (test_docs normalize_test_file is_resmoke_hook docs t).
Proof.
  induction docs as [|d docs IH]; intros st st' H t; simpl in H.
  - now injection H as <-.
  - destruct (add_stats st d) as [st1|] eqn:H1; [|discriminate].
    cbn [bind] in H. rewrite (IH _ _ H t). clear IH H.
    apply add_stats_Ok in H1. unfold test_docs. cbn [filter].
    destruct (is_resmoke_hook (norm d)); cbn [negb andb].
    + destruct H1 as [-> _]. reflexivity.
    + destruct H1 as [_ H1].
      destruct (String.eqb_spec (norm d) t) as [<-|Hne].
      * apply add_runtime_info_Ok in H1 as [_ ->]. reflexivity.
      * now rewrite (add_runtime_info_other _ _ _ _ _ _ H1 Hne).
Qed.

Lemma add_all_hooks (docs : list doc) :
  forall st st', add_all st docs = Ok st' ->
  forall name,
    dict_get (_hook_runtime_by_test st') name
    = merge_all (dict_get (_hook_runtime_by_test st) name)
        (hook_docs normalize_test_file is_resmoke_hook split_test_hook_name
           docs name).
Proof.
  induction docs as [|d docs IH]; intros st st' H name; simpl in H.
  - now injection H as <-.
  - destruct (add_stats st d) as [st1|] eqn:H1; [|discriminate].
    cbn [bind] in H. rewrite (IH _ _ H name). clear IH H.
    apply add_stats_Ok in H1. unfold hook_docs. cbn [filter].
    destruct (is_resmoke_hook (norm d)); cbn [negb andb].
    + destruct H1 as [_ H1].
      destruct (String.eqb_spec (fst (split_test_hook_name (norm d))) name)
        as [<-|Hne].
      * apply add_runtime_info_Ok in H1 as [_ ->]. reflexivity.
      * now rewrite (add_runtime_info_other _ _ _ _ _ _ H1 Hne).
    + destruct H1 as [-> _]. reflexivity.
Qed.

Lemma add_runtime_info_keys (d d' : dict) (k : string) (dur : Q) (n : Z) :
  _add_runtime_info d k dur n = Ok d' ->
  keys d' = if existsb (String.eqb k) (keys d) then keys d else keys d ++ [k].
Proof.
  intros H. apply add_runtime_info_Ok in H as [-> _]. apply keys_dict_set.
Qed.

Lemma add_runtime_info_populated (d d' : dict) (k : string) (dur : Q)
    (n : Z) :
  _add_runtime_info d k dur n = Ok d' -> populated d -> populated d'.
Proof.
  intros H Hp. apply add_runtime_info_Ok in H as [-> _].
  unfold merge_into. destruct (dict_get d k) as [[ri|]|];
    now apply populated_dict_set.
Qed.

Lemma add_all_keys (docs : list doc) :
  forall st st', add_all st docs = Ok st' ->
    keys (_runtime_by_test st')
    = keys (_runtime_by_test st)
      ++ first_occurrences (keys (_runtime_by_test st))
           (test_names normalize_test_file is_resmoke_hook docs).
Proof.
  induction docs as [|d docs IH]; intros st st' H; simpl in H.
  - injection H as <-. simpl. now rewrite app_nil_r.
  - destruct (add_stats st d) as [st1|] eqn:H1; [|discriminate].
    cbn [bind] in H. rewrite (IH _ _ H). clear IH H.
    apply add_stats_Ok in H1. unfold test_names. cbn [filter].
    destruct (is_resmoke_hook (norm d)); cbn [negb map first_occurrences].
    + destruct H1 as [-> _]. reflexivity.
    + destruct H1 as [_ H1]. apply add_runtime_info_keys in H1.
      rewrite H1.
      destruct (existsb (String.eqb (norm d)) (keys (_runtime_by_test st)));
        auto.
      now rewrite <- app_assoc.
Qed.

Lemma add_all_populated (docs : list doc) :
  forall st st', add_all st docs = Ok st' ->
    populated (_runtime_by_test st) -> populated (_runtime_by_test st').
Proof.
  induction docs as [|d docs IH]; intros st st' H Hp; simpl in H.
  - now injection H as <-.
  - destruct (add_stats st d) as [st1|] eqn:H1; [|discriminate].
    cbn [bind] in H. apply (IH _ _ H). clear IH H.
    apply add_stats_Ok in H1.
    destruct (is_resmoke_hook (norm d)).
    + destruct H1 as [-> _]. exact Hp.
    + destruct H1 as [_ H1]. eapply add_runtime_info_populated; eauto.
Qed.

Lemma entry_of_Some (d : dict) (k : string) (ri : runtime_info) :
  entry_of d k = Some ri <-> dict_get d k = Some (Some ri).
Proof.
  unfold entry_of. destruct (dict_get d k) as [[x|]|];
    split; intros H; try discriminate; now injection H as ->.
Qed.


Lemma add_runtime_info_positive (d : dict) (k : string) (dur : Q) (n : Z) :
  positive_runs d -> (1 <= n)%Z ->
  exists d', _add_runtime_info d k dur n = Ok d' /\ positive_runs d'.
Proof.
  intros Hp Hn. rewrite add_runtime_info_unfold.
  destruct (dict_get d k) as [[ri|]|] eqn:E.
  - assert (Hri := Hp k ri E). unfold _average.
    destruct (Z.eqb_spec (num_run ri + n) 0); [lia|]. cbn [bind].
    eexists. split; [reflexivity|].
    intros k' ri'. rewrite dict_get_set.
    destruct (String.eqb k k'); [|apply Hp].
    intros [= <-]. simpl. lia.
  - eexists. split; [reflexivity|].
    intros k' ri'. rewrite dict_get_set.
    destruct (String.eqb k k'); [|apply Hp].
    intros [= <-]. simpl. lia.
  - eexists. split; [reflexivity|].
    intros k' ri'. rewrite dict_get_set.
    destruct (String.eqb k k'); [|apply Hp].
    intros [= <-]. simpl. lia.
Qed.

Lemma add_all_positive (docs : list doc) :
  forall st,
    positive_runs (_runtime_by_test st) ->
    positive_runs (_hook_runtime_by_test st) ->
    (forall d, In d docs -> (1 <= num_pass d)%Z) ->
    exists st',
      add_all st docs = Ok st'
      /\ positive_runs (_runtime_by_test st')
      /\ positive_runs (_hook_runtime_by_test st').
Proof.
  induction docs as [|d docs IH]; intros st Hr Hh Hn.
  - exists st. auto.
  - cbn [add_all_stats]. unfold _add_stats.
    assert (Hd : (1 <= num_pass d)%Z) by (apply Hn; now left).
    destruct (is_resmoke_hook (norm d)).
    + unfold _add_test_hook_stats.
      destruct (add_runtime_info_positive (_hook_runtime_by_test st)
                  (fst (split_test_hook_name (norm d)))
                  (avg_duration_pass d) (num_pass d) Hh Hd)
        as (d' & -> & Hp).
      cbn [bind]. apply IH; auto. intros x Hx. apply Hn. now right.
    + unfold _add_test_stats.
      destruct (add_runtime_info_positive (_runtime_by_test st) (norm d)
                  (avg_duration_pass d) (num_pass d) Hr Hd)
        as (d' & -> & Hp).
      cbn [bind]. apply IH; auto. intros x Hx. apply Hn. now right.
Qed.

Lemma positive_runs_nil : positive_runs [].
Proof. intros k ri H. discriminate. Qed.

(** C9.  When every ingested document has [num_pass >= 1], the ingestion
    never raises: [TestStats(...)] is built, whatever the sequence of
    documents.  More precisely, at every document of the sequence the
    documents before it have been ingested without error, and if the
    document is merged with an existing entry (the only case in which
    [_average] is called) the denominator [num_a + num_b] of the average
    is strictly positive. *)
Theorem no_division_by_zero (docs : list doc) :
  (forall d, In d docs -> (1 <= num_pass d)%Z) ->
  (exists st, init docs = Ok st)
  /\ (forall pre d post,
        docs = pre ++ d :: post ->
        exists st,
          add_all (mkStats [] []) pre = Ok st
          /\ forall ri,
               target_entry normalize_test_file is_resmoke_hook
                 split_test_hook_name st d = Some ri ->
               (0 < num_run ri + num_pass d)%Z).
Proof.
  intros Hn. split.
  - destruct (add_all_positive docs (mkStats [] [])
                positive_runs_nil positive_runs_nil Hn) as (st & H & _).
    exists st. exact H.
  - intros pre d post ->.
    destruct (add_all_positive pre (mkStats [] [])
                positive_runs_nil positive_runs_nil) as (st & H & Hr & Hh).
    { intros x Hx. apply Hn. apply in_or_app. now left. }
    exists st. split; [exact H|].
    assert (Hd : (1 <= num_pass d)%Z).
    { apply Hn. apply in_or_app. right. now left. }
    intros ri. unfold target_entry.
    destruct (is_resmoke_hook (norm d)); rewrite entry_of_Some; intros E.
    + specialize (Hh _ _ E). lia.
    + specialize (Hr _ _ E). lia.
Qed.

(** ** Reported runtimes *)

Lemma getitem_entry_of (hooks hooks' : dict) (k : string) (v : inner_dict) :
  defaultdict_getitem hooks k = (v, hooks') ->
  v = entry_of hooks k /\ forall k', entry_of hooks' k' = entry_of hooks k'.
Proof.
  unfold defaultdict_getitem, entry_of.
  destruct (dict_get hooks k) as [x|] eqn:E; intros [= <- <-].
  - split; auto. now destruct x.
  - split; auto. intros k'. rewrite dict_get_set.
    destruct (String.eqb_spec k k') as [<-|Hne]; auto. now rewrite E.
Qed.

Lemma runtimes_loop_spec (items : dict) :
  forall (hooks : dict) (acc : list (string * Q)),
    populated items ->
    exists out hooks',
      runtimes_loop get_short_name_from_test_file items hooks acc
      = Ok (acc ++ out, hooks')
      /\ (forall k, entry_of hooks' k = entry_of hooks k)
      /\ Forall2 (reported get_short_name_from_test_file hooks) items out.
Proof.
  induction items as [|[t v] items IH]; intros hooks acc Hp.
  - exists [], hooks. simpl. rewrite app_nil_r. repeat split; auto.
  - inversion Hp as [|? ? Hv Hp']; subst. simpl in Hv.
    destruct v as [ri|]; [|congruence]. cbn [runtimes_loop].
    destruct (defaultdict_getitem hooks (get_short_name_from_test_file t))
      as [h hooks1] eqn:Hget.
    apply getitem_entry_of in Hget as [-> Hsame].
    set (d := match entry_of hooks (get_short_name_from_test_file t) with
              | Some h => (duration ri + duration h)%Q
              | None => duration ri
              end).
    destruct (IH hooks1 (acc ++ [(t, d)]) Hp')
      as (out & hooks' & Hrun & Hsame' & Hrep).
    exists ((t, d) :: out), hooks'. split; [|split].
    + rewrite Hrun, <- app_assoc. reflexivity.
    + intros k. now rewrite Hsame', Hsame.
    + constructor.
      * split; [reflexivity|]. exists ri. split; reflexivity.
      * eapply Forall2_impl; [|exact Hrep].
        intros kv p (Hf & ri' & Hs & Hd). split; auto.
        exists ri'. split; auto. rewrite Hd.
        unfold combined_duration. now rewrite Hsame.
Qed.

Lemma Forall2_reported_keys (hooks items : dict) (out : list (string * Q)) :
  Forall2 (reported get_short_name_from_test_file hooks) items out -> map fst out = keys items.
Proof.
  induction 1 as [|kv p items out (Hf & _) _ IH]; simpl; auto.
  now rewrite Hf, IH.
Qed.


(** ** The stable sort *)

Lemma insert_desc_perm (x : string * Q) (l : list (string * Q)) :
  Permutation (x :: l) (insert_desc x l).
Proof.
  induction l as [|y l IH]; simpl; auto.
  destruct (Qgt_bool (snd y) (snd x)); auto.
  rewrite perm_swap. now constructor.
Qed.

Lemma sorted_desc_perm (l : list (string * Q)) :
  Permutation l (sorted_desc l).
Proof.
  induction l as [|x l IH]; simpl; auto.
  rewrite <- insert_desc_perm. now constructor.
Qed.





Local Abbreviation runtimes :=
  (get_tests_runtimes get_short_name_from_test_file).
Local Abbreviation unsorted :=
  (unsorted_runtimes get_short_name_from_test_file).

(** What [get_tests_runtimes] does on an object built by [TestStats]. *)
Lemma get_tests_runtimes_spec (docs : list doc) (st : TestStats) :
  init docs = Ok st ->
  exists tests' st',
    unsorted st = Ok (tests', st')
    /\ runtimes st = Ok (sorted_desc tests', st')
    /\ map fst tests' = keys (_runtime_by_test st)
    /\ keys (_runtime_by_test st)
       = encounter_order (test_names normalize_test_file is_resmoke_hook docs)
    /\ Forall2 (reported get_short_name_from_test_file
                  (_hook_runtime_by_test st))
         (_runtime_by_test st) tests'.
Proof.
  intros H.
  assert (Hp : populated (_runtime_by_test st)).
  { apply (add_all_populated docs _ _ H). constructor. }
  destruct (runtimes_loop_spec (_runtime_by_test st)
              (_hook_runtime_by_test st) [] Hp)
    as (out & hooks' & Hrun & Hsame & Hrep).
  exists out, (mkStats (_runtime_by_test st) hooks').
  unfold get_tests_runtimes, unsorted_runtimes. rewrite Hrun. cbn.
  repeat split; auto.
  - eapply Forall2_reported_keys; eauto.
  - apply (add_all_keys docs _ _ H).
Qed.



End TestStatsProperties.

(** ** The orchestration *)

Lemma divide_tests_into_suites_total (tests_runtimes : list (string * pynum))
    (max_time_seconds : pynum) (max_suites : option Z) :
  exists suites,
    divide_tests_into_suites tests_runtimes max_time_seconds max_suites
    = Ok suites.
Proof.
  destruct (divide_tests_cases tests_runtimes max_time_seconds max_suites)
    as (segs & _ & _ & _ & [[_ Hres]|(_ & Hne & _ & Hres)]).
  - eauto.
  - destruct (divide_remaining_ok
                (skipn (ps_last (packed tests_runtimes max_time_seconds
                                   max_suites)) tests_runtimes)
                (map suite_of segs)) as (res & Hok & _).
    { destruct segs; [congruence|discriminate]. }
    exists res. congruence.
Qed.

Section MainProperties.

Variable normalize_test_file : string -> string.
Variable is_resmoke_hook : string -> bool.
Variable split_test_hook_name : string -> string * string.
Variable get_short_name_from_test_file : string -> string.

Local Abbreviation add_all :=
  (add_all_stats normalize_test_file is_resmoke_hook split_test_hook_name).
Local Abbreviation from_stats :=
  (calculate_suites_from_evg_stats normalize_test_file is_resmoke_hook
     split_test_hook_name get_short_name_from_test_file).
Local Abbreviation suites_of :=
  (calculate_suites normalize_test_file is_resmoke_hook
     split_test_hook_name get_short_name_from_test_file).

Lemma add_runtime_info_no_http (d : dict) (k : string) (dur : Q) (n : Z)
    (e : exn) :
  _add_runtime_info d k dur n = Raise e -> is_http_error e = false.
Proof.
  rewrite add_runtime_info_unfold.
  destruct (dict_get d k) as [[ri|]|]; try discriminate.
  unfold _average. destruct (num_run ri + n =? 0)%Z; cbn [bind];
    [|discriminate].
  now intros [= <-].
Qed.

Lemma add_all_no_http (docs : list doc) :
  forall st e, add_all st docs = Raise e -> is_http_error e = false.
Proof.
  induction docs as [|d docs IH]; intros st e; simpl; [discriminate|].
  unfold _add_stats.
  destruct (is_resmoke_hook (normalize_test_file (test_file d)));
    unfold _add_test_hook_stats, _add_test_stats;
    match goal with
    | |- context [_add_runtime_info ?a ?b ?c ?x] =>
        destruct (_add_runtime_info a b c x) as [d'|e'] eqn:E
    end; cbn [bind]; try apply IH;
    intros [= <-]; eapply add_runtime_info_no_http; eauto.
Qed.

Lemma runtimes_loop_no_http (items : dict) :
  forall hooks acc e,
    runtimes_loop get_short_name_from_test_file items hooks acc = Raise e ->
    is_http_error e = false.
Proof.
  induction items as [|[t [ri|]] items IH]; intros hooks acc e; simpl.
  - discriminate.
  - destruct (defaultdict_getitem hooks (get_short_name_from_test_file t)).
    apply IH.
  - now intros [= <-].
Qed.

Lemma from_stats_no_http (self : Main) (data : list doc) (secs : pynum) (e : exn) :
  fst (from_stats self data secs) = Raise e -> is_http_error e = false.
Proof.
  unfold calculate_suites_from_evg_stats, TestStats_init.
  destruct (add_all (mkStats [] []) data) as [st|e0] eqn:E0; simpl.
  2:{ intros [= <-]. eapply add_all_no_http; eauto. }
  unfold get_tests_runtimes, unsorted_runtimes.
  destruct (runtimes_loop get_short_name_from_test_file (_runtime_by_test st)
              (_hook_runtime_by_test st) []) as [[out hooks']|e1] eqn:E1;
    cbn.
  2:{ intros [= <-]. eapply runtimes_loop_no_http; eauto. }
  match goal with
  | |- context [divide_tests_into_suites ?a ?b ?c] =>
      destruct (divide_tests_into_suites_total a b c) as (res & ->)
  end.
  discriminate.
Qed.

(** C8.  [calculate_suites] returns the fallback partition when the fetch
    of the statistics raises the HTTP error 503; every other exception of
    the fetch is raised to the caller, with no partition; and when the
    fetch succeeds the outcome is that of the statistics-based
    computation, which itself never takes the fallback branch. *)
Theorem calculate_suites_fallback (self : Main) (start_date end_date : Z) :
  (evergreen_api self start_date end_date
   = Raise (HTTPError SERVICE_UNAVAILABLE) ->
   suites_of self start_date end_date
   = (calculate_fallback_suites self, self))
  /\ (forall e,
        evergreen_api self start_date end_date = Raise e ->
        e <> HTTPError SERVICE_UNAVAILABLE ->
        suites_of self start_date end_date = (Raise e, self))
  /\ (forall data,
        evergreen_api self start_date end_date = Ok data ->
        suites_of self start_date end_date
        = from_stats self data (PyInt (execution_time_minutes self * 60))).
Proof.
  unfold calculate_suites, calculate_suites_try, get_evg_stats.
  split; [|split].
  - intros ->. reflexivity.
  - intros e -> Hne. destruct e as [| | |status|name]; auto.
    destruct (Z.eqb_spec status SERVICE_UNAVAILABLE) as [->|]; auto.
    congruence.
  - intros data ->.
    assert (H := from_stats_no_http self data
                   (PyInt (execution_time_minutes self * 60))).
    destruct (from_stats self data
                (PyInt (execution_time_minutes self * 60))) as [r self'].
    simpl in H. destruct r as [s|e]; auto.
    specialize (H e eq_refl). destruct e; auto. discriminate.
Qed.

End MainProperties.

(** * Further properties of the packing *)

Lemma divide_tests_into_suites_length (tests_runtimes : list (string * pynum))
    (max_time_seconds : pynum) (max_suites : option Z) :
  exists suites,
    divide_tests_into_suites tests_runtimes max_time_seconds max_suites
    = Ok suites
    /\ length suites
       = length (close_current
                   (packed tests_runtimes max_time_seconds max_suites)).
Proof.
  destruct (divide_tests_cases tests_runtimes max_time_seconds max_suites)
    as (segs & Hc & _ & _ & [[_ Hres]|(_ & Hne & _ & Hres)]).
  - exists (map suite_of segs). split; auto. now rewrite Hc.
  - destruct (divide_remaining_ok
                (skipn (ps_last (packed tests_runtimes max_time_seconds
                                   max_suites)) tests_runtimes)
                (map suite_of segs)) as (res & Hok & Hlen & _).
    { destruct segs; [congruence|discriminate]. }
    exists res. split; [congruence|]. now rewrite Hc.
Qed.

Lemma pack_loop_count (max_time_seconds : pynum) (m : Z)
    (todo : list (string * pynum)) :
  forall (idx : nat) (suites : list Suite) (cur : Suite) (last : nat),
    (Z.of_nat (length suites) < m)%Z ->
    let st := pack_loop max_time_seconds (Some m) todo idx suites cur last in
    (Z.of_nat (length (ps_suites st)) < m)%Z
    \/ (Z.of_nat (length (ps_suites st)) = m /\ ps_current st = Suite_init).
Proof.
  induction todo as [|[t r] rest IH]; intros idx suites cur last Hlen;
    cbn [pack_loop].
  - left. exact Hlen.
  - destruct (py_gt (py_add (get_runtime cur) r) max_time_seconds);
      [|apply IH; exact Hlen].
    destruct (0 <? get_test_count cur); [|apply IH; exact Hlen].
    assert (Hl : length (suites ++ [cur]) = S (length suites)).
    { rewrite length_app. simpl. lia. }
    destruct (truthy (Some m) && len_ge (suites ++ [cur]) (Some m)) eqn:E.
    + right. cbn. split; auto.
      apply andb_true_iff in E as [_ E]. unfold len_ge in E.
      apply Z.leb_le in E. lia.
    + apply IH. apply andb_false_iff in E as [E|E].
      * unfold truthy in E. apply negb_false_iff, Z.eqb_eq in E. lia.
      * unfold len_ge in E. apply Z.leb_gt in E. exact E.
Qed.

(** X1.  With [max_suites >= 1], [divide_tests_into_suites] never returns
    more than [max_suites] bins. *)
Theorem max_suites_is_a_ceiling (tests_runtimes : list (string * pynum))
    (max_time_seconds : pynum) (m : Z) :
  (1 <= m)%Z ->
  exists suites,
    divide_tests_into_suites tests_runtimes max_time_seconds (Some m)
    = Ok suites
    /\ (Z.of_nat (length suites) <= m)%Z.
Proof.
  intros Hm.
  destruct (divide_tests_into_suites_length tests_runtimes max_time_seconds
              (Some m)) as (res & Hres & Hlen).
  exists res. split; auto. rewrite Hlen. unfold packed, close_current.
  destruct (pack_loop_count max_time_seconds m tests_runtimes 0 [] Suite_init
              (length tests_runtimes) ltac:(simpl; lia)) as [H|[H Hc]].
  - match goal with |- context [if ?b then _ else _] => destruct b end.
    + rewrite length_app. simpl. lia.
    + lia.
  - rewrite Hc. simpl. lia.
Qed.

Lemma falsy_max_suites_no_stop (tests_runtimes : list (string * pynum))
    (max_time_seconds : pynum) (max_suites : option Z) :
  truthy max_suites = false ->
  exists segs,
    divide_tests_into_suites tests_runtimes max_time_seconds max_suites
    = Ok (map suite_of segs)
    /\ Forall (good max_time_seconds) segs
    /\ concat segs = tests_runtimes.
Proof.
  intros Hf.
  destruct (divide_tests_cases tests_runtimes max_time_seconds max_suites)
    as (segs & Hc & Hg & Hcat & [[Hl Hres]|(Hl & Hne & Hs & Hres)]).
  - exists segs. repeat split; auto. now rewrite Hcat, Hl, firstn_all.
  - exfalso. unfold divide_tests_into_suites in Hres.
    fold (packed tests_runtimes max_time_seconds max_suites) in Hres.
    rewrite Hf, Hc in Hres. cbn [andb] in Hres.
    destruct (divide_remaining_ok
                (skipn (ps_last (packed tests_runtimes max_time_seconds
                                   max_suites)) tests_runtimes)
                (map suite_of segs)) as (res & Hok & Hlen & Hnth).
    { destruct segs; [congruence|discriminate]. }
    unfold divide_tests_into_suites in Hres.
    revert Hl Hf. unfold packed.
    destruct (pack_loop_segments max_time_seconds max_suites tests_runtimes
                0 [] [] (length tests_runtimes) (Forall_nil _) I)
      as (segs' & curseg' & k & _ & _ & _ & _ & _ & H6).
    cbn zeta in H6. change (map suite_of []) with (@nil Suite) in H6.
    change (suite_of []) with Suite_init in H6.
    destruct H6 as [[-> _]|(_ & _ & _ & _ & Ht)]; intros; [lia|congruence].
Qed.

(** X2.  Without a limit on the number of bins ([max_suites] is [None] or
    0) the bins are consecutive runs of the input: their tests, bin after
    bin, are the input tests in the input order. *)
Theorem no_limit_keeps_order (tests_runtimes : list (string * pynum))
    (max_time_seconds : pynum) (max_suites : option Z) :
  truthy max_suites = false ->
  exists suites,
    divide_tests_into_suites tests_runtimes max_time_seconds max_suites
    = Ok suites
    /\ all_tests suites = map fst tests_runtimes.
Proof.
  intros Hf.
  destruct (falsy_max_suites_no_stop tests_runtimes max_time_seconds
              max_suites Hf) as (segs & Hres & _ & Hcat).
  exists (map suite_of segs). split; auto.
  now rewrite all_tests_suite_of, Hcat.
Qed.

Lemma later_fit_total (max_time_seconds : pynum)
    (l : list (string * pynum)) :
  forall rt, l <> [] -> later_fit max_time_seconds rt l ->
  py_gt (fold_left (fun a p => py_add a (snd p)) l rt) max_time_seconds
  = false.
Proof.
  induction l as [|x l IH]; intros rt Hne Hl; [congruence|].
  simpl in *. destruct Hl as [H1 H2].
  destruct l as [|y l]; [exact H1|].
  apply IH; [discriminate|exact H2].
Qed.

Lemma good_bin_runtime (max_time_seconds : pynum)
    (seg : list (string * pynum)) :
  good max_time_seconds seg ->
  (exists x, seg = [x])
  \/ py_gt (total_runtime (suite_of seg)) max_time_seconds = false.
Proof.
  intros [Hne Hw]. destruct seg as [|x [|y l]]; [congruence|left; eauto|].
  right. unfold suite_of. rewrite total_runtime_add_tests.
  simpl in Hw. apply (later_fit_total max_time_seconds (y :: l));
    [discriminate|exact Hw].
Qed.

(** X3.  Without a limit on the number of bins, every returned bin holds
    exactly one test or has a total runtime, as the code accumulates it,
    of at most [max_time_seconds]; when every test alone passes the test
    of the loop on an empty bin ([0 + runtime > max_time_seconds] is
    false), every bin is within the budget. *)
Theorem no_limit_respects_budget (tests_runtimes : list (string * pynum))
    (max_time_seconds : pynum) (max_suites : option Z) :
  truthy max_suites = false ->
  exists suites,
    divide_tests_into_suites tests_runtimes max_time_seconds max_suites
    = Ok suites
    /\ Forall (fun s => length (tests s) = 1
                        \/ (value (total_runtime s)
                            <= value max_time_seconds)%Q) suites
    /\ (Forall (fun p => py_gt (py_add (total_runtime Suite_init) (snd p))
                           max_time_seconds = false) tests_runtimes ->
        Forall (fun s => (value (total_runtime s)
                          <= value max_time_seconds)%Q) suites).
Proof.
  intros Hf.
  destruct (falsy_max_suites_no_stop tests_runtimes max_time_seconds
              max_suites Hf) as (segs & Hres & Hg & Hcat).
  exists (map suite_of segs). split; auto. split.
  - apply Forall_map. eapply Forall_impl; [|exact Hg].
    intros seg Hseg. destruct (good_bin_runtime _ _ Hseg) as [[x ->]|H].
    + left. reflexivity.
    + right. apply Qgt_bool_false. exact H.
  - intros Hsmall. apply Forall_map. apply Forall_forall. intros seg Hseg.
    rewrite Forall_forall in Hg.
    destruct (good_bin_runtime _ _ (Hg seg Hseg)) as [[x ->]|H].
    + rewrite Forall_forall in Hsmall.
      apply Qgt_bool_false. apply (Hsmall x).
      rewrite <- Hcat. apply in_concat. exists [x]. split; auto. now left.
    + apply Qgt_bool_false. exact H.
Qed.

(** X5.  [divide_remaining_tests_among_suites] raises exactly when there
    is a test to place and no suite to place it in, and what it raises
    then is an [IndexError]; with nothing to place it returns the suites
    as they are. *)
Theorem divide_remaining_errors (rem : list (string * pynum))
    (suites : list Suite) :
  (forall e,
      divide_remaining_tests_among_suites rem suites = Raise e
      <-> e = IndexError /\ suites = [] /\ rem <> [])
  /\ divide_remaining_tests_among_suites [] suites = Ok suites.
Proof.
  split; [|reflexivity]. intros e. split.
  - intros H. destruct suites as [|s suites].
    + destruct rem as [|[t r] rem]; [discriminate|].
      cbn in H. injection H as <-. repeat split; auto. discriminate.
    + destruct (divide_remaining_ok rem (s :: suites) ltac:(discriminate))
        as (res & Hok & _). congruence.
  - intros (-> & -> & Hne). destruct rem as [|[t r] rem]; [congruence|].
    reflexivity.
Qed.

(** X6.  [divide_tests_into_suites] returns no bin exactly for the empty
    list of tests. *)
Theorem no_bins_iff_no_tests (tests_runtimes : list (string * pynum))
    (max_time_seconds : pynum) (max_suites : option Z) :
  divide_tests_into_suites tests_runtimes max_time_seconds max_suites = Ok []
  <-> tests_runtimes = [].
Proof.
  split.
  - intros H.
    destruct (divide_tests_cases tests_runtimes max_time_seconds max_suites)
      as (segs & Hc & Hg & Hcat & [[Hl Hres]|(Hl & Hne & Hs & Hres)]).
    + rewrite Hres in H. injection H as H.
      destruct segs; [|discriminate]. simpl in Hcat.
      rewrite Hl, firstn_all in Hcat. auto.
    + destruct (divide_remaining_ok
                  (skipn (ps_last (packed tests_runtimes max_time_seconds
                                     max_suites)) tests_runtimes)
                  (map suite_of segs)) as (res & Hok & Hlen & _).
      { destruct segs; [congruence|discriminate]. }
      rewrite Hres, Hok in H. injection H as ->.
      destruct segs; [congruence|discriminate].
  - intros ->. unfold divide_tests_into_suites. cbn.
    now rewrite andb_false_r.
Qed.

Lemma closed_when_full_same_head (max_time_seconds : pynum)
    (segs : list (list (string * pynum))) (p : string * pynum)
    (c c' : list (string * pynum)) :
  closed_when_full max_time_seconds (segs ++ [p :: c]) ->
  closed_when_full max_time_seconds (segs ++ [p :: c']).
Proof.
  induction segs as [|a rest IH]; [simpl; auto|].
  destruct rest as [|b rest].
  - simpl. tauto.
  - intros [H1 H2]. split; [exact H1|]. apply IH. exact H2.
Qed.

Lemma closed_when_full_close (max_time_seconds : pynum)
    (segs : list (list (string * pynum))) (a : list (string * pynum))
    (x : string * pynum) (c : list (string * pynum)) :
  closed_when_full max_time_seconds (segs ++ [a]) ->
  overflows max_time_seconds a x ->
  closed_when_full max_time_seconds ((segs ++ [a]) ++ [x :: c]).
Proof.
  intros H Hx. induction segs as [|a0 rest IH]; [simpl; auto|].
  destruct rest as [|b rest].
  - simpl in *. tauto.
  - destruct H as [H1 H2]. split; [exact H1|]. apply IH. exact H2.
Qed.

Lemma closed_when_full_empty_last (max_time_seconds : pynum)
    (segs : list (list (string * pynum))) :
  closed_when_full max_time_seconds (segs ++ [[]]) -> segs = [].
Proof.
  induction segs as [|a rest IH]; auto.
  destruct rest as [|b rest].
  - simpl. tauto.
  - intros [_ H]. apply IH in H. discriminate.
Qed.

Lemma pack_loop_greedy (max_time_seconds : pynum) (max_suites : option Z)
    (todo : list (string * pynum)) :
  forall (idx : nat) (segs : list (list (string * pynum)))
         (curseg : list (string * pynum)) (last : nat),
    closed_when_full max_time_seconds (segs ++ [curseg]) ->
    exists segs' curseg' k,
      let st := pack_loop max_time_seconds max_suites todo idx
                  (map suite_of segs) (suite_of curseg) last in
      ps_suites st = map suite_of segs'
      /\ ps_current st = suite_of curseg'
      /\ concat segs' ++ curseg' = concat segs ++ curseg ++ firstn k todo
      /\ ((ps_last st = last /\ k = length todo
           /\ closed_when_full max_time_seconds (segs' ++ [curseg']))
          \/ (ps_last st = idx + k /\ curseg' = []
              /\ closed_when_full max_time_seconds segs'
              /\ exists segs0 a x,
                   segs' = segs0 ++ [a]
                   /\ nth_error todo k = Some x
                   /\ overflows max_time_seconds a x)).
Proof.
  induction todo as [|[t r] rest IH]; intros idx segs curseg last Hc.
  - exists segs, curseg, 0. simpl. repeat split; auto.
    now rewrite app_nil_r.
  - cbn [pack_loop].
    destruct (py_gt (py_add (get_runtime (suite_of curseg)) r)
                max_time_seconds) eqn:Hgt.
    + rewrite test_count_suite_of. destruct curseg as [|p curseg]; cbn [negb].
      * apply closed_when_full_empty_last in Hc as ->.
        destruct (IH (S idx) [] [(t, r)] last I)
          as (segs' & curseg' & k & H1 & H2 & H5 & H6).
        exists segs', curseg', (S k). cbn zeta in *.
        change (add_test (suite_of []) t r) with (suite_of [(t, r)]).
        repeat split; auto.
        destruct H6 as [(-> & -> & Hcl)|(-> & -> & Hcl & Hx)];
          [left|right]; simpl; repeat split; auto; lia.
      * assert (Hm : map suite_of segs ++ [suite_of (p :: curseg)]
                     = map suite_of (segs ++ [p :: curseg])).
        { now rewrite map_app. }
        rewrite Hm.
        destruct (truthy max_suites
                  && len_ge (map suite_of (segs ++ [p :: curseg])) max_suites)
          eqn:Hstop.
        -- exists (segs ++ [p :: curseg]), [], 0. cbn zeta. simpl.
           repeat split; auto.
           ++ rewrite concat_app. simpl. now rewrite !app_nil_r.
           ++ right. repeat split; auto.
              exists segs, (p :: curseg), (t, r). repeat split; auto.
        -- destruct (IH (S idx) (segs ++ [p :: curseg]) [(t, r)] last)
             as (segs' & curseg' & k & H1 & H2 & H5 & H6).
           { apply closed_when_full_close; auto. }
           exists segs', curseg', (S k). cbn zeta in *.
           change (add_test Suite_init t r) with (suite_of [(t, r)]).
           repeat split; auto.
           ++ rewrite H5, concat_app. simpl.
              rewrite app_nil_r, <- app_assoc. reflexivity.
           ++ destruct H6 as [(-> & -> & Hcl)|(-> & -> & Hcl & Hx)];
                [left|right]; simpl; repeat split; auto; lia.
    + assert (Hc' : closed_when_full max_time_seconds
                      (segs ++ [curseg ++ [(t, r)]])).
      { destruct curseg as [|p c].
        - apply closed_when_full_empty_last in Hc as ->. exact I.
        - apply (closed_when_full_same_head _ _ _ _ _ Hc). }
      destruct (IH (S idx) segs (curseg ++ [(t, r)]) last Hc')
        as (segs' & curseg' & k & H1 & H2 & H5 & H6).
      exists segs', curseg', (S k). cbn zeta in *.
      rewrite suite_of_snoc.
      repeat split; auto.
      * rewrite H5, <- !app_assoc. reflexivity.
      * destruct H6 as [(-> & -> & Hcl)|(-> & -> & Hcl & Hx)];
          [left|right]; simpl; repeat split; auto; lia.
Qed.

(** X7.  The packing is greedy: the loop closes a bin only when the next
    test does not fit in it.  In the sequence of bins the loop produces,
    the runtime of every bin plus the duration of the first test of the
    next bin, as the code adds them, exceeds [max_time_seconds]; and when
    the loop stops early, the runtime of the last bin plus the duration of
    the first leftover test exceeds it.  When the loop does not stop early
    these bins are the result. *)
Theorem bins_closed_only_when_full (tests_runtimes : list (string * pynum))
    (max_time_seconds : pynum) (max_suites : option Z) :
  let st := packed tests_runtimes max_time_seconds max_suites in
  exists segs,
    close_current st = map suite_of segs
    /\ concat segs = firstn (ps_last st) tests_runtimes
    /\ closed_when_full max_time_seconds segs
    /\ (ps_last st = length tests_runtimes
        \/ exists segs0 a x,
             segs = segs0 ++ [a]
             /\ nth_error tests_runtimes (ps_last st) = Some x
             /\ overflows max_time_seconds a x)
    /\ (ps_last st = length tests_runtimes ->
        divide_tests_into_suites tests_runtimes max_time_seconds max_suites
        = Ok (map suite_of segs)).
Proof.
  intros st.
  destruct (pack_loop_greedy max_time_seconds max_suites tests_runtimes
              0 [] [] (length tests_runtimes) I)
    as (segs' & curseg' & k & H1 & H2 & H5 & H6).
  cbn zeta in *. change (map suite_of []) with (@nil Suite) in *.
  change (suite_of []) with Suite_init in *.
  fold (packed tests_runtimes max_time_seconds max_suites) in *.
  fold st in H1, H2, H6. simpl in H5.
  assert (Hdiv : forall segs,
             close_current st = map suite_of segs ->
             ps_last st = length tests_runtimes ->
             divide_tests_into_suites tests_runtimes max_time_seconds
               max_suites = Ok (map suite_of segs)).
  { intros segs Hc Hl. unfold divide_tests_into_suites.
    fold (packed tests_runtimes max_time_seconds max_suites). fold st.
    now rewrite Hl, Nat.ltb_irrefl, andb_false_r, Hc. }
  assert (Hclose : close_current st
                   = map suite_of
                       (match curseg' with
                        | [] => segs'
                        | _ :: _ => segs' ++ [curseg']
                        end)).
  { unfold close_current. rewrite H1, H2, test_count_suite_of.
    destruct curseg'; cbn [negb]; [reflexivity|].
    now rewrite map_app. }
  destruct H6 as [(Hl & -> & Hcl)|(Hl & -> & Hcl & Hx)].
  - rewrite firstn_all in H5. rewrite Hl, firstn_all.
    destruct curseg' as [|p c].
    + apply closed_when_full_empty_last in Hcl as ->.
      exists []. simpl in H5. repeat split; auto.
    + exists (segs' ++ [p :: c]).
      repeat split; auto.
      rewrite concat_app. simpl. now rewrite app_nil_r.
  - simpl in Hl. rewrite app_nil_r in H5.
    exists segs'. rewrite Hl. repeat split; auto.
    intros Hk. apply Hdiv; auto. congruence.
Qed.

(** * Further properties of the fallback partition *)

(** X8.  The edge cases of [calculate_fallback_suites]: with no test to
    place it returns the suites it created, whatever their number (none
    when [fallback_num_sub_suites] is not positive); with a test to place,
    0 suites make [idx % num_suites] raise [ZeroDivisionError] and a
    negative number makes the indexing of the empty list of suites raise
    [IndexError]. *)
Theorem fallback_edge_cases (self : Main) :
  (list_tests self = [] ->
   calculate_fallback_suites self
   = Ok (repeat Suite_init (Z.to_nat (fallback_num_sub_suites self))))
  /\ (list_tests self <> [] -> fallback_num_sub_suites self = 0%Z ->
      calculate_fallback_suites self = Raise ZeroDivisionError)
  /\ (list_tests self <> [] -> (fallback_num_sub_suites self < 0)%Z ->
      calculate_fallback_suites self = Raise IndexError).
Proof.
  unfold calculate_fallback_suites. split; [|split].
  - intros ->. reflexivity.
  - intros Hne ->. destruct (list_tests self); [congruence|reflexivity].
  - intros Hne Hneg. destruct (list_tests self) as [|t l]; [congruence|].
    cbn [fallback_loop]. unfold py_mod.
    destruct (Z.eqb_spec (fallback_num_sub_suites self) 0); [lia|].
    cbn [bind]. rewrite Z.mod_0_l by lia.
    replace (Z.to_nat (fallback_num_sub_suites self)) with 0 by lia.
    reflexivity.
Qed.

Lemma list_getitem_Ok {A : Type} (l : list A) (i : Z) (j : nat) (x : A) :
  list_getitem l i = Ok (j, x) -> nth_error l j = Some x.
Proof.
  unfold list_getitem.
  destruct ((if (i <? 0)%Z then (Z.of_nat (length l) + i)%Z else i) <? 0)%Z;
    [discriminate|].
  destruct (nth_error l _) eqn:E; [|discriminate].
  now intros [= <- <-].
Qed.

Lemma fallback_loop_perm (n : Z) (todo : list string) :
  forall (idx : nat) (suites res : list Suite),
    fallback_loop n todo idx suites = Ok res ->
    Permutation (all_tests res) (all_tests suites ++ todo).
Proof.
  induction todo as [|t todo IH]; intros idx suites res H;
    cbn [fallback_loop] in H.
  - injection H as <-. now rewrite app_nil_r.
  - destruct (py_mod (Z.of_nat idx) n) as [j|]; [|discriminate].
    cbn [bind] in H.
    destruct (list_getitem suites j) as [[k cur]|] eqn:E; [|discriminate].
    cbn [bind fst snd] in H. apply list_getitem_Ok in E.
    apply IH in H. rewrite H.
    rewrite (all_tests_list_set _ _ _ t (PyInt 0) E).
    simpl. apply Permutation_middle.
Qed.

Lemma all_tests_repeat_init (n : nat) : all_tests (repeat Suite_init n) = [].
Proof. induction n; simpl; auto. Qed.

(** X9.  Whenever [calculate_fallback_suites] returns, its bins hold
    exactly the listed tests, each one once (as a multiset); it does
    return whenever [fallback_num_sub_suites >= 1]. *)
Theorem fallback_is_a_partition (self : Main) :
  (forall suites,
      calculate_fallback_suites self = Ok suites ->
      Permutation (all_tests suites) (list_tests self))
  /\ ((1 <= fallback_num_sub_suites self)%Z ->
      exists suites, calculate_fallback_suites self = Ok suites).
Proof.
  split.
  - intros suites H. unfold calculate_fallback_suites in H.
    apply fallback_loop_perm in H.
    now rewrite all_tests_repeat_init in H.
  - intros Hn. destruct (fallback_suites_spec self Hn) as (suites & H & _).
    eauto.
Qed.

Lemma every_nth_snoc {A : Type} (n j : nat) (l : list A) (x : A) :
  forall k,
    every_nth n j k (l ++ [x])
    = every_nth n j k l
      ++ (if (k + length l) mod n =? j then [x] else []).
Proof.
  induction l as [|y l IH]; intros k; simpl.
  - now rewrite Nat.add_0_r.
  - rewrite IH. replace (S k + length l) with (k + S (length l)) by lia.
    destruct (k mod n =? j); reflexivity.
Qed.

Lemma share_size_step (n j L : nat) :
  j < n ->
  S L / n + (if j <? S L mod n then 1 else 0)
  = L / n + (if j <? L mod n then 1 else 0)
    + (if L mod n =? j then 1 else 0).
Proof.
  intros Hj.
  pose proof (Nat.div_mod_eq L n) as E.
  pose proof (Nat.mod_upper_bound L n ltac:(lia)) as Hr.
  set (q := L / n) in *. set (r := L mod n) in *.
  destruct (Nat.eq_dec (S r) n) as [Hn|Hn].
  - assert (Hq : S L / n = q + 1).
    { symmetry. apply (Nat.div_unique _ n _ 0); nia. }
    assert (Hm : S L mod n = 0).
    { symmetry. apply (Nat.mod_unique _ n (q + 1)); nia. }
    rewrite Hq, Hm.
    destruct (Nat.ltb_spec j 0); [lia|].
    destruct (Nat.ltb_spec j r); destruct (Nat.eqb_spec r j); lia.
  - assert (Hq : S L / n = q).
    { symmetry. apply (Nat.div_unique _ n _ (S r)); nia. }
    assert (Hm : S L mod n = S r).
    { symmetry. apply (Nat.mod_unique _ n q); nia. }
    rewrite Hq, Hm.
    destruct (Nat.ltb_spec j (S r)); destruct (Nat.ltb_spec j r);
      destruct (Nat.eqb_spec r j); lia.
Qed.

Lemma length_round_robin_share {A : Type} (n j : nat) (l : list A) :
  j < n ->
  length (round_robin_share n j l)
  = length l / n + (if j <? length l mod n then 1 else 0).
Proof.
  intros Hj. unfold round_robin_share.
  induction l as [|x l IH] using rev_ind.
  - simpl. rewrite Nat.Div0.div_0_l, Nat.Div0.mod_0_l. reflexivity.
  - rewrite every_nth_snoc, !length_app, IH. simpl length.
    replace (length l + 1) with (S (length l)) by lia.
    rewrite (share_size_step n j (length l) Hj). simpl.
    destruct (length l mod n =? j); simpl; lia.
Qed.

(** X10.  The fallback partition is balanced: with [n] bins and [L]
    tests, bin [j] holds [L / n] tests, and one more when
    [j < L mod n]; so the sizes of two bins differ by at most one and no
    bin is larger than an earlier one. *)
Theorem fallback_is_balanced (self : Main) :
  (1 <= fallback_num_sub_suites self)%Z ->
  let n := Z.to_nat (fallback_num_sub_suites self) in
  let L := length (list_tests self) in
  exists suites,
    calculate_fallback_suites self = Ok suites
    /\ (forall j s, nth_error suites j = Some s ->
          get_test_count s = L / n + (if j <? L mod n then 1 else 0))
    /\ (forall j j' s s',
          j <= j' ->
          nth_error suites j = Some s -> nth_error suites j' = Some s' ->
          get_test_count s' <= get_test_count s <= S (get_test_count s')).
Proof.
  intros Hn n L.
  destruct (fallback_suites_spec self Hn) as (suites & Hok & Hlen & Hnth).
  fold n in Hlen, Hnth.
  assert (Hsize : forall j s, nth_error suites j = Some s ->
            get_test_count s = L / n + (if j <? L mod n then 1 else 0)).
  { intros j s Hs.
    assert (Hj : j < n).
    { rewrite <- Hlen. apply nth_error_Some. congruence. }
    rewrite (Hnth j Hj) in Hs. injection Hs as <-.
    unfold get_test_count. simpl. now apply length_round_robin_share. }
  exists suites. repeat split; auto;
    rewrite (Hsize _ _ H0), (Hsize _ _ H1);
    destruct (Nat.ltb_spec j (L mod n)); destruct (Nat.ltb_spec j' (L mod n));
    lia.
Qed.

Lemma length_add_tests (s : Suite) (l : list (string * pynum)) :
  get_test_count (add_tests s l) = get_test_count s + length l.
Proof.
  unfold get_test_count. rewrite tests_add_tests, length_app, length_map.
  reflexivity.
Qed.

(** X11.  [divide_remaining_tests_among_suites] spreads the tests evenly
    over a non-empty list of [n] suites: with [R] tests to place, suite
    [j] receives [R / n] of them, and one more when [j < R mod n]. *)
Theorem divide_remaining_is_even (rem : list (string * pynum))
    (suites : list Suite) :
  suites <> [] ->
  let n := length suites in
  let R := length rem in
  exists res,
    divide_remaining_tests_among_suites rem suites = Ok res
    /\ length res = n
    /\ forall j s, nth_error suites j = Some s ->
         exists s',
           nth_error res j = Some s'
           /\ get_test_count s'
              = get_test_count s + R / n + (if j <? R mod n then 1 else 0).
Proof.
  intros Hne n R.
  destruct (divide_remaining_ok rem suites Hne) as (res & Hok & Hlen & Hnth).
  exists res. repeat split; auto.
  intros j s Hs. eexists. split; [apply Hnth; exact Hs|].
  rewrite length_add_tests.
  rewrite length_round_robin_share.
  - fold n R. lia.
  - apply nth_error_Some. congruence.
Qed.

(** * Further properties of the statistics *)

(** X12.  [_add_runtime_info] raises exactly when the key has a filled
    entry whose run count and the new run count add up to 0, and what it
    raises then is [ZeroDivisionError]; in particular the first sample of
    a key is always accepted. *)
Theorem add_runtime_info_errors (d : dict) (k : string) (dur : Q) (n : Z) :
  forall e,
    _add_runtime_info d k dur n = Raise e
    <-> e = ZeroDivisionError
        /\ exists ri, dict_get d k = Some (Some ri)
                      /\ (num_run ri + n = 0)%Z.
Proof.
  intros e. rewrite add_runtime_info_unfold. split.
  - destruct (dict_get d k) as [[ri|]|]; try discriminate.
    unfold _average. destruct (Z.eqb_spec (num_run ri + n) 0);
      cbn [bind]; [|discriminate].
    intros [= <-]. split; auto. exists ri. auto.
  - intros (-> & ri & -> & Hn). unfold _average.
    rewrite Hn. reflexivity.
Qed.

Lemma merge_all_filled (ds : list doc) :
  forall a,
    exists b,
      merge_all (Some (Some a)) ds = Some (Some b)
      /\ num_run b = (num_run a + total_runs ds)%Z.
Proof.
  induction ds as [|d ds IH]; intros a; simpl.
  - exists a. split; auto. lia.
  - destruct (IH (merge a (sample_of d))) as (b & Hb & Hn).
    exists b. split; [exact Hb|]. rewrite Hn. simpl. lia.
Qed.

Lemma merge_all_None (ds : list doc) :
  (merge_all None ds = None <-> ds = [])
  /\ merge_all None ds <> Some None
  /\ forall ri, merge_all None ds = Some (Some ri) ->
       num_run ri = total_runs ds.
Proof.
  destruct ds as [|d ds].
  - simpl. repeat split; try discriminate; auto.
  - destruct (merge_all_filled ds (sample_of d)) as (b & Hb & Hn).
    change (merge_all None (d :: ds))
      with (merge_all (Some (Some (sample_of d))) ds).
    rewrite Hb. repeat split; try discriminate.
    intros ri [= <-]. rewrite Hn. reflexivity.
Qed.

Section FurtherStatsProperties.

Variable normalize_test_file : string -> string.
Variable is_resmoke_hook : string -> bool.
Variable split_test_hook_name : string -> string * string.
Variable get_short_name_from_test_file : string -> string.

Local Abbreviation add_all :=
  (add_all_stats normalize_test_file is_resmoke_hook split_test_hook_name).
Local Abbreviation init :=
  (TestStats_init normalize_test_file is_resmoke_hook split_test_hook_name).
Local Abbreviation docs_of :=
  (test_docs normalize_test_file is_resmoke_hook).
Local Abbreviation hooks_of :=
  (hook_docs normalize_test_file is_resmoke_hook split_test_hook_name).
Local Abbreviation runtimes :=
  (get_tests_runtimes get_short_name_from_test_file).

(** X13.  After the ingestion of a sequence of documents, a test has an
    entry in the test mapping exactly when at least one document was a
    sample of it (a test without samples is absent, not present with a
    zero entry), an entry is never an empty dict, and the entry's
    [num_run] is the sum of the [num_pass] of the test's documents.  The
    same holds for the hook mapping and the hook documents of a test
    name. *)
Theorem entries_follow_documents (docs : list doc) (st : TestStats) :
  init docs = Ok st ->
  (forall t,
      (dict_get (_runtime_by_test st) t = None <-> docs_of docs t = [])
      /\ dict_get (_runtime_by_test st) t <> Some None
      /\ forall ri, dict_get (_runtime_by_test st) t = Some (Some ri) ->
           num_run ri = total_runs (docs_of docs t))
  /\ (forall name,
        (dict_get (_hook_runtime_by_test st) name = None
         <-> hooks_of docs name = [])
        /\ dict_get (_hook_runtime_by_test st) name <> Some None
        /\ forall ri,
             dict_get (_hook_runtime_by_test st) name = Some (Some ri) ->
             num_run ri = total_runs (hooks_of docs name)).
Proof.
  intros H. split.
  - intros t.
    rewrite (add_all_runtime normalize_test_file is_resmoke_hook
               split_test_hook_name docs _ _ H t).
    apply merge_all_None.
  - intros name.
    rewrite (add_all_hooks normalize_test_file is_resmoke_hook
               split_test_hook_name docs _ _ H name).
    apply merge_all_None.
Qed.

(** X14.  The ingestion raises nothing but [ZeroDivisionError]. *)
Theorem ingestion_raises_only_zero_division (docs : list doc) (e : exn) :
  init docs = Raise e -> e = ZeroDivisionError.
Proof.
  unfold TestStats_init. generalize (mkStats [] []).
  induction docs as [|d docs IH]; intros st; simpl; [discriminate|].
  unfold _add_stats.
  destruct (is_resmoke_hook (normalize_test_file (test_file d)));
    unfold _add_test_hook_stats, _add_test_stats;
    match goal with
    | |- context [_add_runtime_info ?a ?b ?c ?x] =>
        destruct (_add_runtime_info a b c x) as [d'|e'] eqn:E
    end; cbn [bind]; try apply IH;
    intros [= <-]; apply add_runtime_info_errors in E; tauto.
Qed.

Lemma getitem_present (hooks : dict) (k : string) (v : inner_dict) :
  dict_get hooks k = Some v -> defaultdict_getitem hooks k = (v, hooks).
Proof. unfold defaultdict_getitem. now intros ->. Qed.

Lemma getitem_after (hooks hooks1 : dict) (k : string) (v : inner_dict) :
  defaultdict_getitem hooks k = (v, hooks1) ->
  dict_get hooks1 k = Some v
  /\ forall k' v', dict_get hooks k' = Some v' -> dict_get hooks1 k' = Some v'.
Proof.
  unfold defaultdict_getitem.
  destruct (dict_get hooks k) as [x|] eqn:E; intros [= <- <-].
  - auto.
  - split.
    + now rewrite dict_get_set, String.eqb_refl.
    + intros k' v' H. rewrite dict_get_set.
      destruct (String.eqb_spec k k'); [congruence|exact H].
Qed.

Lemma runtimes_loop_keeps (items : dict) :
  forall hooks acc out hooks',
    runtimes_loop get_short_name_from_test_file items hooks acc
    = Ok (out, hooks') ->
    forall k v, dict_get hooks k = Some v -> dict_get hooks' k = Some v.
Proof.
  induction items as [|[t [ri|]] items IH]; intros hooks acc out hooks' H;
    cbn [runtimes_loop] in H.
  - injection H as _ <-. auto.
  - destruct (defaultdict_getitem hooks (get_short_name_from_test_file t))
      as [v1 hooks1] eqn:G.
    apply getitem_after in G as [_ G].
    intros k v Hk. eapply IH; eauto.
  - discriminate.
Qed.

Lemma runtimes_loop_again (items : dict) :
  forall hooks acc out hooks',
    runtimes_loop get_short_name_from_test_file items hooks acc
    = Ok (out, hooks') ->
    runtimes_loop get_short_name_from_test_file items hooks' acc
    = Ok (out, hooks').
Proof.
  induction items as [|[t [ri|]] items IH]; intros hooks acc out hooks' H;
    cbn [runtimes_loop] in *.
  - injection H as <- <-. reflexivity.
  - destruct (defaultdict_getitem hooks (get_short_name_from_test_file t))
      as [v1 hooks1] eqn:G.
    apply getitem_after in G as [G _].
    rewrite (getitem_present hooks' _ v1
               (runtimes_loop_keeps _ _ _ _ _ H _ _ G)).
    eapply IH; eauto.
  - discriminate.
Qed.

(** X17.  [get_tests_runtimes] can be called again: although its lookups
    extend the hook [defaultdict] with empty entries, a second call on the
    object the first one leaves returns the same list and changes
    nothing. *)
Theorem get_tests_runtimes_repeatable (st st' : TestStats)
    (out : list (string * Q)) :
  runtimes st = Ok (out, st') -> runtimes st' = Ok (out, st').
Proof.
  unfold get_tests_runtimes, unsorted_runtimes.
  destruct (runtimes_loop get_short_name_from_test_file (_runtime_by_test st)
              (_hook_runtime_by_test st) []) as [[l hooks']|] eqn:E;
    cbn; [|discriminate].
  intros [= <- <-]. cbn.
  rewrite (runtimes_loop_again _ _ _ _ _ E). reflexivity.
Qed.

End FurtherStatsProperties.

Lemma divide_tests_perm (tests_runtimes : list (string * pynum))
    (max_time_seconds : pynum) (max_suites : option Z) :
  exists suites,
    divide_tests_into_suites tests_runtimes max_time_seconds max_suites
    = Ok suites
    /\ Permutation (all_tests suites) (map fst tests_runtimes).
Proof.
  destruct (divide_tests_cases tests_runtimes max_time_seconds max_suites)
    as (segs & Hc & Hg & Hcat & [[Hl Hres]|(Hl & Hne & Hs & Hres)]).
  - exists (map suite_of segs). split; auto.
    rewrite all_tests_suite_of, Hcat, Hl, firstn_all. reflexivity.
  - destruct (divide_remaining_ok
                (skipn (ps_last (packed tests_runtimes max_time_seconds
                                   max_suites)) tests_runtimes)
                (map suite_of segs)) as (res & Hok & _ & _).
    { destruct segs; [congruence|discriminate]. }
    exists res. split; [congruence|].
    apply divide_remaining_loop_perm in Hok. rewrite Hok.
    rewrite all_tests_suite_of, Hcat, <- map_app, firstn_skipn.
    reflexivity.
Qed.

Lemma map_fst_float_runtimes (l : list (string * Q)) :
  map fst (float_runtimes l) = map fst l.
Proof.
  unfold float_runtimes. rewrite map_map. reflexivity.
Qed.

Section FurtherMainProperties.

Variable normalize_test_file : string -> string.
Variable is_resmoke_hook : string -> bool.
Variable split_test_hook_name : string -> string * string.
Variable get_short_name_from_test_file : string -> string.

Local Abbreviation init :=
  (TestStats_init normalize_test_file is_resmoke_hook split_test_hook_name).
Local Abbreviation from_stats :=
  (calculate_suites_from_evg_stats normalize_test_file is_resmoke_hook
     split_test_hook_name get_short_name_from_test_file).

Lemma from_stats_spec (self : Main) (data : list doc)
    (execution_time_secs : pynum) :
  (forall e, init data = Raise e ->
             from_stats self data execution_time_secs = (Raise e, self))
  /\ (forall st, init data = Ok st ->
        exists suites self',
          from_stats self data execution_time_secs = (Ok suites, self')
          /\ self' = set_test_list self (test_list self')
          /\ Permutation (test_list self')
               (encounter_order
                  (test_names normalize_test_file is_resmoke_hook data))
          /\ Permutation (all_tests suites) (test_list self')
          /\ NoDup (all_tests suites)).
Proof.
  unfold calculate_suites_from_evg_stats. split.
  - intros e ->. reflexivity.
  - intros st H. rewrite H.
    destruct (get_tests_runtimes_spec normalize_test_file is_resmoke_hook
                split_test_hook_name get_short_name_from_test_file
                data st H)
      as (tests' & st' & Hu & Hr & Hk & Hkeys & Hrep).
    rewrite Hr.
    destruct (divide_tests_perm (float_runtimes (sorted_desc tests'))
                execution_time_secs
                (max_sub_suites
                   (set_test_list self (map fst (sorted_desc tests')))))
      as (suites & Hok & Hperm).
    rewrite map_fst_float_runtimes in Hperm.
    rewrite Hok.
    exists suites, (set_test_list self (map fst (sorted_desc tests'))).
    assert (Hp : Permutation (map fst (sorted_desc tests'))
                   (encounter_order
                      (test_names normalize_test_file is_resmoke_hook data))).
    { rewrite <- Hkeys, <- Hk. apply Permutation_map.
      apply Permutation_sym, sorted_desc_perm. }
    assert (Hnd : NoDup (encounter_order
                      (test_names normalize_test_file is_resmoke_hook data))).
    { apply (first_occurrences_NoDup _ []). constructor. }
    repeat split; auto.
    apply (Permutation_NoDup (l := encounter_order
             (test_names normalize_test_file is_resmoke_hook data))); auto.
    apply Permutation_sym. now rewrite Hperm.
Qed.

(** X18.  [calculate_suites_from_evg_stats] on documents whose ingestion
    raises leaves the object as it was and raises the same exception.
    Otherwise it returns bins and sets [self.test_list], leaving the other
    attributes alone; [test_list] names each test of the statistics once
    (the non-hook names of the documents, without repetition), and the
    bins hold exactly the tests of [test_list], each in one bin only. *)
Theorem stats_suites_cover_test_list (self : Main) (data : list doc)
    (execution_time_secs : pynum) :
  (forall e, init data = Raise e ->
             from_stats self data execution_time_secs = (Raise e, self))
  /\ (forall st, init data = Ok st ->
        exists suites self',
          from_stats self data execution_time_secs = (Ok suites, self')
          /\ self' = set_test_list self (test_list self')
          /\ Permutation (test_list self')
               (encounter_order
                  (test_names normalize_test_file is_resmoke_hook data))
          /\ Permutation (all_tests suites) (test_list self')
          /\ NoDup (all_tests suites)).
Proof. exact (from_stats_spec self data execution_time_secs). Qed.

Local Abbreviation suites_of :=
  (calculate_suites normalize_test_file is_resmoke_hook
     split_test_hook_name get_short_name_from_test_file).

(** X19.  Whenever [calculate_suites] returns bins, they are a partition
    of a known list of tests: either the statistics were fetched, and the
    bins hold exactly the tests of the [test_list] the call has set, or
    the fetch raised the HTTP error 503, the object is unchanged (its
    [test_list] included) and the bins hold exactly the tests listed for
    the suite. *)
Theorem returned_suites_are_a_partition (self self' : Main)
    (start_date end_date : Z) (suites : list Suite) :
  suites_of self start_date end_date = (Ok suites, self') ->
  ((exists data, evergreen_api self start_date end_date = Ok data)
   /\ self' = set_test_list self (test_list self')
   /\ Permutation (all_tests suites) (test_list self')
   /\ NoDup (all_tests suites))
  \/ (evergreen_api self start_date end_date
      = Raise (HTTPError SERVICE_UNAVAILABLE)
      /\ self' = self
      /\ Permutation (all_tests suites) (list_tests self)).
Proof.
  unfold calculate_suites, calculate_suites_try, get_evg_stats.
  destruct (evergreen_api self start_date end_date) as [data|e] eqn:Hfetch.
  - assert (Hno := from_stats_no_http normalize_test_file is_resmoke_hook
                     split_test_hook_name get_short_name_from_test_file
                     self data
                     (PyInt (execution_time_minutes self * 60))).
    destruct (from_stats_spec self data
                (PyInt (execution_time_minutes self * 60)))
      as [Hraise Hok].
    destruct (init data) as [st|e] eqn:Hinit.
    + destruct (Hok st eq_refl)
        as (res & self1 & -> & Hself & _ & Hperm & Hnd).
      intros [= <- <-]. left. repeat split; eauto.
    + rewrite (Hraise e eq_refl) in *. specialize (Hno e eq_refl).
      destruct e; try discriminate.
  - destruct e as [| | |status|name]; try discriminate.
    destruct (Z.eqb_spec status SERVICE_UNAVAILABLE) as [->|];
      [|discriminate].
    intros [= Hfb <-]. right. repeat split; auto.
    unfold calculate_fallback_suites in Hfb.
    apply fallback_loop_perm in Hfb.
    now rewrite all_tests_repeat_init in Hfb.
Qed.

End FurtherMainProperties.

End Arithmetic.

Local Close Scope Q_scope.

(** * The statements on sample inputs *)

(** The statement of C2 at the example of the specification. *)
Lemma early_stop_round_robin_witness :
  exists suites,
    divide_tests_into_suites exact_add exact_round
      [("A"%string, PyInt 100); ("B"%string, PyInt 100);
       ("C"%string, PyInt 100); ("D"%string, PyInt 100)] (PyInt 150) (Some 2%Z)
    = Ok suites
    /\ 0 < 2
    /\ length suites = 2
    /\ forall j s,
         nth_error [mkSuite ["A"%string] (PyInt 100); mkSuite ["B"%string] (PyInt 100)] j
         = Some s ->
         nth_error suites j
         = Some (add_tests exact_add exact_round s
                   (round_robin_share 2 j
                      [("C"%string, PyInt 100); ("D"%string, PyInt 100)])).
Proof.
  apply (proj1 (early_stop_round_robin exact_add exact_round)
           [("A"%string, PyInt 100); ("B"%string, PyInt 100);
            ("C"%string, PyInt 100); ("D"%string, PyInt 100)] (PyInt 150)
       (Some 2%Z)).
  vm_compute. lia.
Defined.

(** C3 on two floats and an int, with an oversized test, in an arithmetic
    that does not round: [A] alone, then [B, C]. *)
Lemma bins_within_budget_witness :
  exists segs suites,
    concat segs = [("A"%string, PyFloat 200); ("B"%string, PyInt 100);
                   ("C"%string, PyFloat 40)]
    /\ close_current
         (packed exact_add exact_round
            [("A"%string, PyFloat 200); ("B"%string, PyInt 100);
             ("C"%string, PyFloat 40)] (PyInt 150) None)
       = map (suite_of exact_add exact_round) segs
    /\ divide_tests_into_suites exact_add exact_round
         [("A"%string, PyFloat 200); ("B"%string, PyInt 100);
          ("C"%string, PyFloat 40)] (PyInt 150) None
       = Ok suites
    /\ (forall j, 0 <= j ->
          nth_error suites j
          = nth_error (map (suite_of exact_add exact_round) segs) j)
    /\ Forall
         (fun seg =>
            seg <> []
            /\ (forall pre x post,
                  seg = pre ++ x :: post -> pre <> [] ->
                  (value (py_add exact_add exact_round
                            (get_runtime (suite_of exact_add exact_round pre))
                            (snd x))
                   <= value (PyInt 150))%Q)
            /\ (forall p,
                  In p seg -> (value (PyInt 150) < value (snd p))%Q ->
                  seg = [p]))
         segs.
Proof.
  apply (bins_within_budget exact_add exact_round (fun _ => True)
           [("A"%string, PyFloat 200); ("B"%string, PyInt 100);
            ("C"%string, PyFloat 40)] (PyInt 150) None).
  - unfold sound_rounding, exact_add, exact_round.
    repeat split; auto; intros; try lra.
    now apply inject_Z_nonneg.
  - repeat constructor; simpl; try discriminate; try lia.
Defined.

(** C7 on four tests and two bins. *)
Lemma fallback_round_robin_witness :
  exists suites,
    Ok [mkSuite ["a"; "c"]%string (PyInt 0); mkSuite ["b"; "d"]%string (PyInt 0)]
    = Ok suites
    /\ length suites = 2
    /\ (forall j, j < 2 ->
          nth_error suites j
          = Some (mkSuite (round_robin_share 2 j ["a"; "b"; "c"; "d"]%string)
                    (PyInt 0)))
    /\ (forall i t, nth_error ["a"; "b"; "c"; "d"]%string i = Some t ->
          exists s, nth_error suites (i mod 2) = Some s
                    /\ In t (tests s) /\ total_runtime s = (PyInt 0)).
Proof.
  apply (proj1 (fallback_round_robin exact_add exact_round)
           (mkMain (fun _ _ => Ok []) 2 None 60
              ["a"; "b"; "c"; "d"]%string [])).
  simpl. lia.
Defined.

(** C10 with one test and three bins: the last two bins are empty. *)
Lemma fallback_keeps_empty_bins_witness :
  exists suites,
    Ok [mkSuite ["t0"%string] (PyInt 0); Suite_init; Suite_init] = Ok suites
    /\ length suites = 3
    /\ forall j, 1 <= j -> j < 3 -> nth_error suites j = Some Suite_init.
Proof.
  apply (proj1 (fallback_keeps_empty_bins exact_add exact_round)
           (mkMain (fun _ _ => Ok []) 3 None 60 ["t0"%string] [])).
  simpl. lia.
Defined.


(** C9 on [merge_docs]. *)
Lemma no_division_by_zero_witness :
  (exists st,
      TestStats_init sample_normalize_test_file sample_is_resmoke_hook
        sample_split_test_hook_name merge_docs = Ok st)
  /\ (forall pre d post,
        merge_docs = pre ++ d :: post ->
        exists st,
          add_all_stats sample_normalize_test_file sample_is_resmoke_hook
            sample_split_test_hook_name (mkStats [] []) pre = Ok st
          /\ forall ri,
               target_entry sample_normalize_test_file sample_is_resmoke_hook
                 sample_split_test_hook_name st d = Some ri ->
               (0 < num_run ri + num_pass d)%Z).
Proof.
  apply (no_division_by_zero sample_normalize_test_file
           sample_is_resmoke_hook sample_split_test_hook_name merge_docs).
  intros d [<-|[<-|[<-|[]]]]; simpl; lia.
Defined.



(** C8 on [degraded_main]: the three listed tests in two bins. *)
Lemma calculate_suites_fallback_witness :
  calculate_suites exact_add exact_round sample_normalize_test_file sample_is_resmoke_hook
    sample_split_test_hook_name sample_get_short_name_from_test_file
    degraded_main 0 14
  = (Ok [mkSuite ["a"; "c"]%string (PyInt 0); mkSuite ["b"]%string (PyInt 0)],
     degraded_main).
Proof.
  apply (proj1 (calculate_suites_fallback exact_add exact_round
                  sample_normalize_test_file
                  sample_is_resmoke_hook sample_split_test_hook_name
                  sample_get_short_name_from_test_file degraded_main 0 14)).
  reflexivity.
Defined.

Lemma max_suites_is_a_ceiling_witness :
  exists suites,
    divide_tests_into_suites exact_add exact_round
      [("A"%string, PyInt 100); ("B"%string, PyInt 100);
       ("C"%string, PyInt 100); ("D"%string, PyInt 100)] (PyInt 150) (Some 3%Z)
    = Ok suites
    /\ (Z.of_nat (length suites) <= 3)%Z.
Proof.
  apply (max_suites_is_a_ceiling exact_add exact_round
           [("A"%string, PyInt 100); ("B"%string, PyInt 100);
            ("C"%string, PyInt 100); ("D"%string, PyInt 100)] (PyInt 150) 3%Z).
  lia.
Defined.

Lemma no_limit_keeps_order_witness :
  exists suites,
    divide_tests_into_suites exact_add exact_round
      [("A"%string, PyInt 100); ("B"%string, PyInt 100); ("C"%string, PyInt 40)]
      (PyInt 150) (Some 0%Z)
    = Ok suites
    /\ all_tests suites = ["A"; "B"; "C"]%string.
Proof.
  apply (no_limit_keeps_order exact_add exact_round
           [("A"%string, PyInt 100); ("B"%string, PyInt 100); ("C"%string, PyInt 40)]
           (PyInt 150) (Some 0%Z)).
  reflexivity.
Defined.

Lemma no_limit_respects_budget_witness :
  exists suites,
    divide_tests_into_suites exact_add exact_round
      [("A"%string, PyFloat 100); ("B"%string, PyFloat 100);
       ("C"%string, PyFloat 40)] (PyInt 150) None
    = Ok suites
    /\ Forall (fun s => length (tests s) = 1
                        \/ (value (total_runtime s) <= value (PyInt 150))%Q)
         suites
    /\ (Forall (fun p => py_gt (py_add exact_add exact_round
                                  (total_runtime Suite_init) (snd p))
                           (PyInt 150) = false)
          [("A"%string, PyFloat 100); ("B"%string, PyFloat 100);
           ("C"%string, PyFloat 40)] ->
        Forall (fun s => (value (total_runtime s) <= value (PyInt 150))%Q)
          suites).
Proof.
  apply (no_limit_respects_budget exact_add exact_round
           [("A"%string, PyFloat 100); ("B"%string, PyFloat 100);
            ("C"%string, PyFloat 40)] (PyInt 150) None).
  reflexivity.
Defined.

Lemma bins_closed_only_when_full_witness :
  exists segs,
    [mkSuite ["A"%string] (PyInt 200); mkSuite ["B"; "C"]%string (PyInt 140)]
    = map (suite_of exact_add exact_round) segs
    /\ concat segs
       = [("A"%string, PyInt 200); ("B"%string, PyInt 100); ("C"%string, PyInt 40)]
    /\ closed_when_full exact_add exact_round (PyInt 150) segs.
Proof.
  destruct (bins_closed_only_when_full exact_add exact_round
              [("A"%string, PyInt 200); ("B"%string, PyInt 100); ("C"%string, PyInt 40)]
              (PyInt 150) None) as (segs & H1 & H2 & H3 & _).
  exists segs. exact (conj H1 (conj H2 H3)).
Defined.

Lemma fallback_edge_cases_witness :
  calculate_fallback_suites exact_add exact_round
    (mkMain (fun _ _ => Ok []) (-2) None 60 ["a"; "b"]%string [])
  = Raise IndexError.
Proof.
  apply (proj2 (proj2 (fallback_edge_cases exact_add exact_round
                         (mkMain (fun _ _ => Ok []) (-2) None 60
                            ["a"; "b"]%string [])))).
  - discriminate.
  - reflexivity.
Defined.

Lemma fallback_is_a_partition_witness :
  Permutation
    (all_tests [mkSuite ["a"; "c"]%string (PyInt 0); mkSuite ["b"]%string (PyInt 0)])
    ["a"; "b"; "c"]%string.
Proof.
  apply (proj1 (fallback_is_a_partition exact_add exact_round degraded_main)
           [mkSuite ["a"; "c"]%string (PyInt 0); mkSuite ["b"]%string (PyInt 0)]).
  reflexivity.
Defined.

Lemma fallback_is_balanced_witness :
  exists suites,
    Ok [mkSuite ["a"; "c"]%string (PyInt 0); mkSuite ["b"]%string (PyInt 0)] = Ok suites
    /\ (forall j s, nth_error suites j = Some s ->
          get_test_count s = 3 / 2 + (if j <? 3 mod 2 then 1 else 0))
    /\ (forall j j' s s',
          j <= j' ->
          nth_error suites j = Some s -> nth_error suites j' = Some s' ->
          get_test_count s' <= get_test_count s <= S (get_test_count s')).
Proof.
  apply (fallback_is_balanced exact_add exact_round degraded_main).
  simpl. lia.
Defined.

Lemma divide_remaining_is_even_witness :
  exists res,
    divide_remaining_tests_among_suites exact_add exact_round
      [("C"%string, PyInt 100); ("D"%string, PyInt 100); ("E"%string, PyInt 100)]
      [mkSuite ["A"%string] (PyInt 100); mkSuite ["B"%string] (PyInt 100)]
    = Ok res
    /\ length res = 2
    /\ forall j s,
         nth_error [mkSuite ["A"%string] (PyInt 100); mkSuite ["B"%string] (PyInt 100)] j
         = Some s ->
         exists s',
           nth_error res j = Some s'
           /\ get_test_count s'
              = get_test_count s + 3 / 2 + (if j <? 3 mod 2 then 1 else 0).
Proof.
  apply (divide_remaining_is_even exact_add exact_round
           [("C"%string, PyInt 100); ("D"%string, PyInt 100); ("E"%string, PyInt 100)]
           [mkSuite ["A"%string] (PyInt 100); mkSuite ["B"%string] (PyInt 100)]).
  discriminate.
Defined.

Lemma entries_follow_documents_witness :
  dict_get (_runtime_by_test foo_stats) "other.js" = None
  <-> test_docs sample_normalize_test_file sample_is_resmoke_hook foo_docs
        "other.js" = [].
Proof.
  exact (proj1 (proj1 (entries_follow_documents sample_normalize_test_file
                         sample_is_resmoke_hook sample_split_test_hook_name
                         foo_docs foo_stats eq_refl) "other.js"%string)).
Defined.

Lemma ingestion_raises_only_zero_division_witness :
  TestStats_init sample_normalize_test_file sample_is_resmoke_hook
    sample_split_test_hook_name
    [mkDoc "a.js" 10%Q 0%Z; mkDoc "a.js" 20%Q 0%Z]
  = Raise ZeroDivisionError
  /\ ZeroDivisionError = ZeroDivisionError.
Proof.
  split; [reflexivity|].
  exact (ingestion_raises_only_zero_division sample_normalize_test_file
           sample_is_resmoke_hook sample_split_test_hook_name
           [mkDoc "a.js" 10%Q 0%Z; mkDoc "a.js" 20%Q 0%Z]
           ZeroDivisionError eq_refl).
Defined.

Lemma get_tests_runtimes_repeatable_witness :
  get_tests_runtimes sample_get_short_name_from_test_file
    (mkStats (_runtime_by_test tie_stats)
       [("a"%string, None); ("b"%string, None); ("c"%string, None)])
  = Ok ([("b.js"%string, 7%Q); ("a.js"%string, 5%Q); ("c.js"%string, 5%Q)],
        mkStats (_runtime_by_test tie_stats)
          [("a"%string, None); ("b"%string, None); ("c"%string, None)]).
Proof.
  apply (get_tests_runtimes_repeatable sample_get_short_name_from_test_file
           tie_stats).
  reflexivity.
Defined.

Lemma stats_suites_cover_test_list_witness :
  exists suites self',
    calculate_suites_from_evg_stats exact_add exact_round
      sample_normalize_test_file
      sample_is_resmoke_hook sample_split_test_hook_name
      sample_get_short_name_from_test_file degraded_main tie_docs (PyInt 10)
    = (Ok suites, self')
    /\ self' = set_test_list degraded_main (test_list self')
    /\ Permutation (test_list self') ["a.js"; "b.js"; "c.js"]%string
    /\ Permutation (all_tests suites) (test_list self')
    /\ NoDup (all_tests suites).
Proof.
  apply (proj2 (stats_suites_cover_test_list exact_add exact_round
                  sample_normalize_test_file
                  sample_is_resmoke_hook sample_split_test_hook_name
                  sample_get_short_name_from_test_file degraded_main
                  tie_docs (PyInt 10)) tie_stats).
  reflexivity.
Defined.

Lemma returned_suites_are_a_partition_witness :
  (exists data, @Raise (list doc) (HTTPError 503) = Ok data)
  /\ degraded_main = set_test_list degraded_main (test_list degraded_main)
  /\ Permutation
       (all_tests [mkSuite ["a"; "c"]%string (PyInt 0); mkSuite ["b"]%string (PyInt 0)])
       (test_list degraded_main)
  /\ NoDup
       (all_tests [mkSuite ["a"; "c"]%string (PyInt 0); mkSuite ["b"]%string (PyInt 0)])
  \/ @Raise (list doc) (HTTPError 503) = Raise (HTTPError SERVICE_UNAVAILABLE)
     /\ degraded_main = degraded_main
     /\ Permutation
          (all_tests [mkSuite ["a"; "c"]%string (PyInt 0); mkSuite ["b"]%string (PyInt 0)])
          (list_tests degraded_main).
Proof.
  apply (returned_suites_are_a_partition exact_add exact_round
           sample_normalize_test_file
           sample_is_resmoke_hook sample_split_test_hook_name
           sample_get_short_name_from_test_file degraded_main degraded_main
           0%Z 14%Z).
  reflexivity.
Defined.

(** * The rounded arithmetic at work

    With the binary64 arithmetic for [fadd] and [fround] the packing
    follows the rounded sums: ten tests of 0.1 s fit in one bin of 1 s
    (their rounded sum is below 1), where an arithmetic that does not
    round closes the bin after nine of them. *)
Lemma ten_tenths_in_one_bin :
  divide_tests_into_suites binary64_add binary64_round
    (repeat ("t"%string, PyFloat (binary64_round (1 # 10))) 10)
    (PyInt 1) None
  = Ok [mkSuite (repeat "t"%string 10)
          (PyFloat (9007199254740991 # 9007199254740992))]
  /\ option_map (map get_test_count)
       (match divide_tests_into_suites exact_add exact_round
                (repeat ("t"%string, PyFloat (binary64_round (1 # 10))) 10)
                (PyInt 1) None with
        | Ok suites => Some suites
        | Raise _ => None
        end)
     = Some [9; 1].
Proof. split; vm_compute; reflexivity. Qed.

(** Seven runtimes whose rounded sum exceeds 3600 s although their exact
    sum does not: the loop closes the bin before the seventh. *)
Lemma rounded_sum_closes_the_bin :
  let runtimes :=
    map (fun q => ("t"%string, PyFloat (binary64_round q)))
      [154105 # 100; 128778 # 100; 24801 # 100; 20254 # 100;
       13676 # 100; 9206 # 100; 918 # 10]%Q in
  option_map (map get_test_count)
    (match divide_tests_into_suites binary64_add binary64_round runtimes
             (PyInt 3600) None with
     | Ok suites => Some suites
     | Raise _ => None
     end)
  = Some [6; 1]
  /\ option_map (map get_test_count)
       (match divide_tests_into_suites exact_add exact_round runtimes
                (PyInt 3600) None with
        | Ok suites => Some suites
        | Raise _ => None
        end)
     = Some [7].
Proof. split; vm_compute; reflexivity. Qed.
